(** * Arduino device enumerator: a shallow embedding of [arduino_detector.py]

    The development follows the source file top to bottom:

    - [Py]: the fragment of Python the detector relies on (JSON values as
      produced by [json.loads], exceptions, [str.lower], the substring
      test [in], [dict.get], [sorted(list(set(...)))]);
    - [ArduinoDetector]: the class of the same name, method by method
      ([get_serial_ports], [get_usb_device_info] with its inner
      [search_usb_tree], [detect_arduino_devices], [print_device_info])
      and [main];
    - [Topology]: USB device trees as typed values, their encoding as the
      JSON the classifier walks, and the statements about them.

    Strings are sequences of bytes (UTF-8).  The substrings searched for
    are ASCII, and the byte-wise order of UTF-8 text is the order of its
    code points, so the substring test and the sort are those of Python.
    [str.lower] is modelled on the ASCII letters, which is what it does
    on ASCII text; the case mapping of other code points is outside the
    model. *)

From Stdlib Require Import String Ascii List Bool Arith ZArith Lia.
From Stdlib Require Import Sorted Permutation DecimalString.
Import ListNotations.

Set Warnings "-register-all".

Open Scope list_scope.
Open Scope string_scope.

(* ================================================================== *)
(** * The Python fragment *)
(* ================================================================== *)

Module Py.

(** Values returned by [json.loads].  An object is kept as its member
    list; [dict_find] reads the first binding of a key.  A number is only
    ever tested for being a string or an iterable here, so integers
    stand for all JSON numbers. *)
Inductive json : Type :=
| JNull
| JBool (b : bool)
| JNum (n : Z)
| JStr (s : string)
| JArr (elems : list json)
| JObj (members : list (string * json)).

(** The exceptions that can occur in this program.  Those raised by the
    two library calls carry the text [str(e)] they are printed with. *)
Inductive exn : Type :=
| FileNotFoundError (msg : string)
| CalledProcessError (msg : string)
| JSONDecodeError (msg : string)
| KeyError (key : string)
| AttributeError
| TypeError.

Inductive result (A : Type) : Type :=
| Return (a : A)
| Raise (e : exn).
Arguments Return {A} a.
Arguments Raise {A} e.

Definition bind {A B} (r : result A) (k : A -> result B) : result B :=
  match r with
  | Return a => k a
  | Raise e => Raise e
  end.

Notation "x <- r ;; k" := (bind r (fun x => k))
  (at level 61, r at next level, right associativity).

(** [c.lower()] on one ASCII character. *)
Definition lower_ascii (c : ascii) : ascii :=
  let n := nat_of_ascii c in
  if (65 <=? n)%nat && (n <=? 90)%nat then ascii_of_nat (n + 32) else c.

(** [s.lower()] *)
Fixpoint lower (s : string) : string :=
  match s with
  | EmptyString => EmptyString
  | String c s' => String (lower_ascii c) (lower s')
  end.

(** [s.startswith(p)] *)
Fixpoint startswith (p s : string) : bool :=
  match p, s with
  | EmptyString, _ => true
  | String _ _, EmptyString => false
  | String a p', String b s' => Ascii.eqb a b && startswith p' s'
  end.

(** [sub in s] for two strings: [sub] occurs in [s] at some offset. *)
Fixpoint contains (sub s : string) : bool :=
  startswith sub s ||
  match s with
  | EmptyString => false
  | String _ s' => contains sub s'
  end.

(** [sub] occurs in [s]: some text, then [sub], then some text. *)
Definition occurs_in (sub s : string) : Prop :=
  exists a b, s = a ++ sub ++ b.

(** The binding of [key] in a dict, if any. *)
Fixpoint dict_find {V} (d : list (string * V)) (key : string) : option V :=
  match d with
  | [] => None
  | (k, v) :: d' => if String.eqb k key then Some v else dict_find d' key
  end.

(** [key in d] *)
Definition dict_mem {V} (d : list (string * V)) (key : string) : bool :=
  match dict_find d key with Some _ => true | None => false end.

(** [d.get(key, default)] *)
Definition dict_get {V} (d : list (string * V)) (key : string) (default : V) : V :=
  match dict_find d key with Some v => v | None => default end.

(** ** Dynamic typing: the operations the detector applies to values
    whose type it never tests *)

(** [v.get(key, default)]: only [dict] has the method. *)
Definition py_get (v : json) (key : string) (default : json) : result json :=
  match v with
  | JObj d => Return (dict_get d key default)
  | _ => Raise AttributeError
  end.

(** [key in v] for a string [key]: key membership in a dict, element
    membership in a list, substring test in a string. *)
Definition py_in (key : string) (v : json) : result bool :=
  match v with
  | JObj d => Return (dict_mem d key)
  | JArr l =>
      Return (existsb (fun x => match x with JStr s => String.eqb key s | _ => false end) l)
  | JStr s => Return (contains key s)
  | _ => Raise TypeError
  end.

(** [v[key]] for a string [key]. *)
Definition py_index (v : json) (key : string) : result json :=
  match v with
  | JObj d =>
      match dict_find d key with
      | Some x => Return x
      | None => Raise (KeyError key)
      end
  | _ => Raise TypeError
  end.

(** The values [for x in v] runs through: the elements of a list, the
    keys of a dict, the characters of a string. *)
Definition py_iter (v : json) : result (list json) :=
  match v with
  | JArr l => Return l
  | JObj d => Return (map (fun kv => JStr (fst kv)) d)
  | JStr s => Return (map (fun c => JStr (String c EmptyString)) (list_ascii_of_string s))
  | _ => Raise TypeError
  end.

(** A [for] loop whose body updates a state and may raise. *)
Definition for_each {A S} (body : A -> S -> result S) : list A -> S -> result S :=
  fix loop (l : list A) (s : S) : result S :=
    match l with
    | [] => Return s
    | x :: l' => s' <- body x s ;; loop l' s'
    end.

(** [v == s] for a string [s]. *)
Definition eq_str (v : json) (s : string) : bool :=
  match v with
  | JStr s' => String.eqb s' s
  | _ => false
  end.

(** [v.lower()] on a JSON value: only [str] has the method. *)
Definition str_lower (v : json) : result string :=
  match v with
  | JStr s => Return (lower s)
  | _ => Raise AttributeError
  end.

(** ** Sorting strings *)

(** [sorted(l)] on strings: ascending in the byte-wise lexicographic
    order [String.compare].  Python's sort is stable; so is insertion
    from the right. *)
Fixpoint insert (x : string) (l : list string) : list string :=
  match l with
  | [] => [x]
  | y :: l' => if String.leb x y then x :: l else y :: insert x l'
  end.

Definition sorted (l : list string) : list string :=
  fold_right insert [] l.

(** [list(set(l))]: the distinct elements of [l].  The order in which a
    Python set is iterated is unspecified; the detector sorts the list
    at once, and [Scanner.sorted_set_order_irrelevant] shows that the
    order chosen here does not matter. *)
Definition list_set (l : list string) : list string :=
  nodup string_dec l.

(** Strictly ascending in the lexicographic order of strings. *)
Definition ascending (l : list string) : Prop :=
  StronglySorted (fun a b => String.ltb a b = true) l.

(** Standard output: the argument of each [print] call, in order. *)
Definition stdout := list string.

(** The line feed, ["\n"]. *)
Definition nl : string := String (ascii_of_nat 10) EmptyString.

(** [s * n] *)
Fixpoint repeat_str (s : string) (n : nat) : string :=
  match n with
  | O => EmptyString
  | S n' => s ++ repeat_str s n'
  end.

(** [str(n)] for a natural number. *)
Definition str_of_nat (n : nat) : string :=
  NilEmpty.string_of_uint (Nat.to_uint n).

(** [enumerate(l, start)] *)
Fixpoint enumerate {A} (l : list A) (start : nat) : list (nat * A) :=
  match l with
  | [] => []
  | x :: l' => (start, x) :: enumerate l' (S start)
  end.

End Py.

(* ================================================================== *)
(** * class ArduinoDetector *)
(* ================================================================== *)

Module ArduinoDetector.
Import Py.

(** Common Arduino USB vendor IDs. *)
Definition ARDUINO_IDS : list (string * string) :=
  [ ("0x2341", "Arduino");
    ("0x1a86", "CH340/CH341");
    ("0x0403", "FTDI");
    ("0x10c4", "Silicon Labs");
    ("0x067b", "Prolific") ].

(** ** get_serial_ports *)

Definition patterns : list string :=
  [ "/dev/cu.usbserial*";
    "/dev/cu.usbmodem*";
    "/dev/cu.wchusbserial*";
    "/dev/tty.usbserial*";
    "/dev/tty.usbmodem*";
    "/dev/tty.wchusbserial*" ].

(** The filesystem enters through [glob]: the list [glob.glob(pattern)]
    returns for each pattern. *)
Definition get_serial_ports (glob : string -> list string) : list string :=
  let usb_devices :=
    fold_left (fun usb_devices pattern => (usb_devices ++ glob pattern)%list) patterns [] in
  sorted (list_set usb_devices).

(** ** get_usb_device_info *)

(** The [device_info] dict appended for a matching node.  Seven entries
    are copied from the node as they are, whatever their type. *)
Record CandidateDevice : Type := {
  name : json;
  vendor_id : json;
  product_id : json;
  version : json;
  speed : json;
  location_id : json;
  manufacturer : string;
  serial_number : json
}.

Definition is_arduino (vendor_id product_name : string) : bool :=
  dict_mem ARDUINO_IDS vendor_id
  || contains "arduino" product_name
  || contains "serial" product_name
  || contains "ch340" product_name
  || contains "ftdi" product_name
  || contains "usb2.0-serial" product_name.

Definition device_info (item : list (string * json)) (vendor_id : string) : CandidateDevice :=
  {| name := dict_get item "_name" (JStr "Unknown");
     vendor_id := dict_get item "vendor_id" (JStr "Unknown");
     product_id := dict_get item "product_id" (JStr "Unknown");
     version := dict_get item "bcd_device" (JStr "Unknown");
     speed := dict_get item "speed" (JStr "Unknown");
     location_id := dict_get item "location_id" (JStr "Unknown");
     manufacturer := dict_get ARDUINO_IDS vendor_id "Unknown";
     serial_number := dict_get item "serial_num" (JStr "Unknown") |}.

(** The part of the loop body before the recursive call: the three
    normalised strings, the test, the append. *)
Definition classify (item : list (string * json)) (arduino_devices : list CandidateDevice)
  : result (list CandidateDevice) :=
  vendor_id <- str_lower (dict_get item "vendor_id" (JStr "")) ;;
  product_id <- str_lower (dict_get item "product_id" (JStr "")) ;;
  product_name <- str_lower (dict_get item "_name" (JStr "")) ;;
  Return (if is_arduino vendor_id product_name
          then (arduino_devices ++ [device_info item vendor_id])%list
          else arduino_devices).

(** [search_usb_tree(items)], with the list [arduino_devices] it appends
    to passed in and out.  The recursion is structural on the JSON value:
    the test ['_items' in item] and the read [item['_items']] are one
    walk over the members ([find_items]).  An [items] that is not a list
    is iterated as Python does: a dict yields its keys and a string its
    characters, on which [.get] raises; other values are not iterable.
    [search_usb_tree_unfold] restates the body with the operations of
    [Py]. *)
Fixpoint search_usb_tree (items : json) (arduino_devices : list CandidateDevice)
  {struct items} : result (list CandidateDevice) :=
  match items with
  | JArr elems =>
      (fix for_item (elems : list json) (arduino_devices : list CandidateDevice)
         : result (list CandidateDevice) :=
         match elems with
         | [] => Return arduino_devices
         | JObj item :: rest =>
             arduino_devices <- classify item arduino_devices ;;
             arduino_devices <-
               (fix find_items (ms : list (string * json)) : result (list CandidateDevice) :=
                  match ms with
                  | [] => Return arduino_devices
                  | (k, v) :: ms' =>
                      if String.eqb k "_items"
                      then search_usb_tree v arduino_devices
                      else find_items ms'
                  end) item ;;
             for_item rest arduino_devices
         | _ :: _ => Raise AttributeError
         end) elems arduino_devices
  | JObj [] => Return arduino_devices
  | JObj (_ :: _) => Raise AttributeError
  | JStr EmptyString => Return arduino_devices
  | JStr (String _ _) => Raise AttributeError
  | JNull | JBool _ | JNum _ => Raise TypeError
  end.

(** [if '_items' in item: search_usb_tree(item['_items'], item)] on a
    dict [item]. *)
Definition search_items (item : list (string * json)) (arduino_devices : list CandidateDevice)
  : result (list CandidateDevice) :=
  match dict_find item "_items" with
  | Some items => search_usb_tree items arduino_devices
  | None => Return arduino_devices
  end.

(** The loop body of [search_usb_tree] on an arbitrary element. *)
Definition search_item (item : json) (arduino_devices : list CandidateDevice)
  : result (list CandidateDevice) :=
  match item with
  | JObj d =>
      arduino_devices <- classify d arduino_devices ;;
      has_items <- py_in "_items" item ;;
      if has_items : bool
      then items <- py_index item "_items" ;; search_usb_tree items arduino_devices
      else Return arduino_devices
  | _ => Raise AttributeError
  end.

(** What the two library calls at the head of the [try] block produce:
    [subprocess.run(..., check=True)] followed by [json.loads]. *)
Inductive usb_info : Type :=
| CommandNotFound (msg : string)   (* no [system_profiler] to execute *)
| NonZeroExit (msg : string)       (* [check=True] and a non-zero exit status *)
| InvalidJSON (msg : string)       (* the output is not a JSON document *)
| Parsed (usb_data : json).

Definition run_and_load (c : usb_info) : result json :=
  match c with
  | CommandNotFound msg => Raise (FileNotFoundError msg)
  | NonZeroExit msg => Raise (CalledProcessError msg)
  | InvalidJSON msg => Raise (JSONDecodeError msg)
  | Parsed usb_data => Return usb_data
  end.

(** The body of the [try] block. *)
Definition get_usb_device_info_try (c : usb_info) : result (list CandidateDevice) :=
  usb_data <- run_and_load c ;;
  buses <- py_get usb_data "SPUSBDataType" (JArr []) ;;
  buses <- py_iter buses ;;
  for_each (fun bus arduino_devices =>
              has_items <- py_in "_items" bus ;;
              if has_items : bool
              then items <- py_index bus "_items" ;; search_usb_tree items arduino_devices
              else Return arduino_devices)
           buses [].

(** [except (subprocess.CalledProcessError, json.JSONDecodeError, KeyError) as e]:
    the text of [e] when the clause catches it. *)
Definition caught (e : exn) : option string :=
  match e with
  | CalledProcessError msg => Some msg
  | JSONDecodeError msg => Some msg
  | KeyError key => Some ("'" ++ key ++ "'")
  | FileNotFoundError _ | AttributeError | TypeError => None
  end.

(** Programs that print and may raise. *)
Definition M (A : Type) : Type := (stdout * result A)%type.

Definition ret {A} (a : A) : M A := ([], Return a).

Definition print (s : string) : M unit := ([s], Return tt).

Definition bindM {A B} (m : M A) (k : A -> M B) : M B :=
  match m with
  | (out, Return a) => let (out', r) := k a in ((out ++ out')%list, r)
  | (out, Raise e) => (out, Raise e)
  end.

Notation "x <~ m ;; k" := (bindM m (fun x => k))
  (at level 61, m at next level, right associativity).
Notation "m ;;; k" := (bindM m (fun _ => k))
  (at level 61, right associativity).

Definition get_usb_device_info (c : usb_info) : M (list CandidateDevice) :=
  match get_usb_device_info_try c with
  | Return arduino_devices => ret arduino_devices
  | Raise e =>
      match caught e with
      | Some msg => print ("Error getting USB device info: " ++ msg) ;;; ret []
      | None => ([], Raise e)
      end
  end.

(** ** detect_arduino_devices *)

Record ScanResult : Type := {
  serial_ports : list string;
  usb_devices : list CandidateDevice;
  total_devices : nat
}.

Definition detect_arduino_devices (glob : string -> list string) (c : usb_info)
  : M ScanResult :=
  print "🔍 Scanning for Arduino devices..." ;;;
  let serial_ports := get_serial_ports glob in
  usb_devices <~ get_usb_device_info c ;;
  ret {| serial_ports := serial_ports;
         usb_devices := usb_devices;
         total_devices := length serial_ports |}.

(** ** print_device_info *)

Section Printing.

(** [str(v)], as an f-string renders a field of a device: the string
    itself, and Python's own rendering [str_of_value] of any other
    value. *)
Variable str_of_value : json -> string.

Definition str (v : json) : string :=
  match v with
  | JStr s => s
  | _ => str_of_value v
  end.

(** A [for] loop that only prints. *)
Definition for_print {A} (body : A -> M unit) (l : list A) : M unit :=
  fold_right (fun x k => body x ;;; k) (ret tt) l.

Definition rule : string := repeat_str "=" 60.

Definition print_usb_device (entry : nat * CandidateDevice) : M unit :=
  let (i, device) := entry in
  print (nl ++ "   Device " ++ str_of_nat i ++ ":") ;;;
  print ("      Name: " ++ str (name device)) ;;;
  print ("      Manufacturer: " ++ manufacturer device) ;;;
  print ("      Vendor ID: " ++ str (vendor_id device)) ;;;
  print ("      Product ID: " ++ str (product_id device)) ;;;
  print ("      Version: " ++ str (version device)) ;;;
  print ("      Speed: " ++ str (speed device)) ;;;
  print ("      Location: " ++ str (location_id device)) ;;;
  if negb (eq_str (serial_number device) "Unknown")
  then print ("      Serial Number: " ++ str (serial_number device))
  else ret tt.

Definition print_device_info (devices : ScanResult) : M unit :=
  print (nl ++ rule) ;;;
  print "🔌 ARDUINO DEVICE DETECTION RESULTS" ;;;
  print rule ;;;
  if (total_devices devices =? 0)%nat then
    print "❌ No Arduino devices found." ;;;
    print (nl ++ "💡 Tips:") ;;;
    print "   • Make sure your Arduino is connected via USB" ;;;
    print "   • Check that the USB cable supports data transfer" ;;;
    print "   • Try a different USB port"
  else
    print ("✅ Found " ++ str_of_nat (total_devices devices)
           ++ " potential Arduino device(s)") ;;;
    print (nl ++ "📡 Serial Ports ("
           ++ str_of_nat (length (serial_ports devices)) ++ "):") ;;;
    for_print (fun entry : nat * string =>
                 let (i, port) := entry in
                 print ("   " ++ str_of_nat i ++ ". " ++ port))
              (enumerate (serial_ports devices) 1) ;;;
    match usb_devices devices with
    | [] => ret tt
    | _ :: _ =>
        print (nl ++ "🔧 USB Device Details ("
               ++ str_of_nat (length (usb_devices devices)) ++ "):") ;;;
        for_print print_usb_device (enumerate (usb_devices devices) 1)
    end ;;;
    print (nl ++ "💻 Usage in Arduino IDE:") ;;;
    print "   Use these ports in Arduino IDE > Tools > Port:" ;;;
    for_print (fun port =>
                 if contains "cu." port then print ("   • " ++ port) else ret tt)
              (serial_ports devices).

(** ** main *)

Definition main (glob : string -> list string) (c : usb_info) : M unit :=
  print "Arduino Device Enumerator for macOS" ;;;
  print "Created for detecting Arduino Uno and compatible devices" ;;;
  devices <~ detect_arduino_devices glob c ;;
  print_device_info devices ;;;
  print (nl ++ rule).

End Printing.

End ArduinoDetector.

(* ================================================================== *)
(** * USB device trees *)
(* ================================================================== *)

Module Topology.
Import Py ArduinoDetector.

(** A node of the USB topology: seven optional string attributes and an
    optional sequence of children. *)
Inductive USBDeviceNode : Type :=
  Node {
    node_name : option string;
    node_vendor_id : option string;
    node_product_id : option string;
    node_bcd_device : option string;
    node_speed : option string;
    node_location_id : option string;
    node_serial_num : option string;
    node_items : option (list USBDeviceNode)
  }.

Definition children (n : USBDeviceNode) : list USBDeviceNode :=
  match node_items n with
  | Some cs => cs
  | None => []
  end.

(** The dict entry of an attribute that is present. *)
Definition attr (key : string) (v : option string) : list (string * json) :=
  match v with
  | Some s => [(key, JStr s)]
  | None => []
  end.

(** The JSON object [system_profiler] emits for a node. *)
Fixpoint node_json (n : USBDeviceNode) : json :=
  match n with
  | Node nm vid pid bcd sp loc ser items =>
      JObj (attr "_name" nm ++ attr "vendor_id" vid ++ attr "product_id" pid
            ++ attr "bcd_device" bcd ++ attr "speed" sp
            ++ attr "location_id" loc ++ attr "serial_num" ser
            ++ match items with
               | Some cs => [("_items", JArr (map node_json cs))]
               | None => []
               end)%list
  end.

Definition nodes_json (ns : list USBDeviceNode) : json :=
  JArr (map node_json ns).

(** The members of [node_json n]. *)
Definition node_members (n : USBDeviceNode) : list (string * json) :=
  (attr "_name" (node_name n) ++ attr "vendor_id" (node_vendor_id n)
   ++ attr "product_id" (node_product_id n)
   ++ attr "bcd_device" (node_bcd_device n) ++ attr "speed" (node_speed n)
   ++ attr "location_id" (node_location_id n)
   ++ attr "serial_num" (node_serial_num n)
   ++ match node_items n with
      | Some cs => [("_items", nodes_json cs)]
      | None => []
      end)%list.

(** An attribute lower-cased, the empty string standing for an absent
    one. *)
Definition normalized (v : option string) : string :=
  lower (match v with Some s => s | None => "" end).

(** The classification predicate on a node. *)
Definition matches (n : USBDeviceNode) : bool :=
  is_arduino (normalized (node_vendor_id n)) (normalized (node_name n)).

Definition or_unknown (v : option string) : json :=
  JStr (match v with Some s => s | None => "Unknown" end).

(** The record reported for a node. *)
Definition candidate (n : USBDeviceNode) : CandidateDevice :=
  {| name := or_unknown (node_name n);
     vendor_id := or_unknown (node_vendor_id n);
     product_id := or_unknown (node_product_id n);
     version := or_unknown (node_bcd_device n);
     speed := or_unknown (node_speed n);
     location_id := or_unknown (node_location_id n);
     manufacturer :=
       match dict_find ARDUINO_IDS (normalized (node_vendor_id n)) with
       | Some label => label
       | None => "Unknown"
       end;
     serial_number := or_unknown (node_serial_num n) |}.

(** The nodes of a subtree, the root first, then the subtrees of its
    children from left to right. *)
Fixpoint subtree (n : USBDeviceNode) : list USBDeviceNode :=
  n :: match node_items n with
       | Some cs => flat_map subtree cs
       | None => []
       end.

Definition preorder (ns : list USBDeviceNode) : list USBDeviceNode :=
  flat_map subtree ns.

(** The records of the matching nodes, in pre-order. *)
Definition found (ns : list USBDeviceNode) : list CandidateDevice :=
  map candidate (filter matches (preorder ns)).

(** A field of a record against the attribute it is taken from. *)
Definition copied (a : option string) (field : json) : Prop :=
  match a with
  | Some s => field = JStr s
  | None => field = JStr "Unknown"
  end.

(** The number of nodes of a subtree, at any depth, that match. *)
Fixpoint count_matching (n : USBDeviceNode) : nat :=
  (if matches n then 1 else 0)
  + match node_items n with
    | Some cs => list_sum (map count_matching cs)
    | None => 0
    end.

Definition count_matching_all (ns : list USBDeviceNode) : nat :=
  list_sum (map count_matching ns).

Fixpoint node_size (n : USBDeviceNode) : nat :=
  S (match node_items n with
     | Some cs => list_sum (map node_size cs)
     | None => 0
     end).

(** The topology as [json.loads] returns it: a dict whose [SPUSBDataType]
    entry lists the buses. *)
Definition usb_data_of (buses : list USBDeviceNode) : json :=
  JObj [("SPUSBDataType", nodes_json buses)].

(** A node with a name and a vendor ID at most, and the children given. *)
Definition device (nm vid : option string) (items : option (list USBDeviceNode))
  : USBDeviceNode :=
  Node nm vid None None None None None items.

(** The lines of a report that found no device file. *)
Definition no_devices_report : stdout :=
  [ nl ++ rule;
    "🔌 ARDUINO DEVICE DETECTION RESULTS";
    rule;
    "❌ No Arduino devices found.";
    nl ++ "💡 Tips:";
    "   • Make sure your Arduino is connected via USB";
    "   • Check that the USB cable supports data transfer";
    "   • Try a different USB port" ].

End Topology.

(* ================================================================== *)
(** * Notions for the further properties *)
(* ================================================================== *)

Module Notions.
Import Py ArduinoDetector Topology.

(** The number of constructors of a JSON value, the measure the search
    descends on. *)
Fixpoint json_size (j : json) : nat :=
  match j with
  | JArr l => S (list_sum (map json_size l))
  | JObj d => S (list_sum (map (fun kv => json_size (snd kv)) d))
  | _ => 1
  end.

(** A step on the list of records that only appends: from any list it
    yields that list followed by what it yields from the empty one, and
    it raises from any list when it raises from the empty one. *)
Definition appends (f : list CandidateDevice -> result (list CandidateDevice)) : Prop :=
  forall acc, f acc = (r <- f [] ;; Return (acc ++ r)%list).

(** The only exceptions the walk over parsed data can raise. *)
Definition dynamic_error (e : exn) : Prop :=
  e = AttributeError \/ e = TypeError.

(** A record that is coherent with itself: its name, vendor ID and
    product ID are strings, its manufacturer is the table's label for its
    own vendor ID lower-cased, and its own name and vendor ID satisfy the
    predicate. *)
Definition coherent (d : CandidateDevice) : Prop :=
  exists nm vid pid,
    name d = JStr nm
    /\ vendor_id d = JStr vid
    /\ product_id d = JStr pid
    /\ manufacturer d = dict_get ARDUINO_IDS (lower vid) "Unknown"
    /\ is_arduino (lower vid) (lower nm) = true.

(** A step that keeps every record coherent and raises nothing but the
    two dynamic errors. *)
Definition keeps (f : list CandidateDevice -> result (list CandidateDevice)) : Prop :=
  forall acc,
    Forall coherent acc ->
    match f acc with
    | Return devs => Forall coherent devs
    | Raise e => dynamic_error e
    end.

(** An attribute that [.lower()] accepts: absent, or a string. *)
Definition text_or_absent (d : list (string * json)) (key : string) : bool :=
  match dict_find d key with
  | None | Some (JStr _) => true
  | Some _ => false
  end.

(** The normalised form of an attribute the loop body lower-cases: the
    string lower-cased, the empty string for an absent one. *)
Definition lowered (d : list (string * json)) (key : string) : string :=
  match dict_find d key with
  | Some (JStr s) => lower s
  | _ => ""
  end.

(** A field of a record against the entry of the dict it is read from:
    the value of the entry as it is, whatever its type, or "Unknown"
    when the dict has no such entry. *)
Definition taken_from (d : list (string * json)) (key : string) (field : json) : Prop :=
  match dict_find d key with
  | Some v => field = v
  | None => field = JStr "Unknown"
  end.

(** The shape of data the search walks to the end: a list of dicts whose
    vendor ID, product ID and name are each absent or a string and whose
    [_items] entry, when there is one, has that shape again; or a dict
    or a string with nothing in it. *)
Fixpoint searchable (items : json) : bool :=
  match items with
  | JArr elems =>
      forallb
        (fun item =>
           match item with
           | JObj d =>
               text_or_absent d "vendor_id"
               && text_or_absent d "product_id"
               && text_or_absent d "_name"
               && (fix sub (ms : list (string * json)) : bool :=
                     match ms with
                     | [] => true
                     | (k, v) :: ms' =>
                         if String.eqb k "_items" then searchable v else sub ms'
                     end) d
           | _ => false
           end)
        elems
  | JObj [] => true
  | JStr EmptyString => true
  | _ => false
  end.


(** The line of a port in the report. *)
Definition port_line (entry : nat * string) : string :=
  "   " ++ str_of_nat (fst entry) ++ ". " ++ snd entry.

Section Lines.

Variable str_of_value : json -> string.

(** The lines of a record in the report. *)
Definition device_lines (entry : nat * CandidateDevice) : list string :=
  let device := snd entry in
  let fields :=
    [ nl ++ "   Device " ++ str_of_nat (fst entry) ++ ":";
      "      Name: " ++ str str_of_value (name device);
      "      Manufacturer: " ++ manufacturer device;
      "      Vendor ID: " ++ str str_of_value (vendor_id device);
      "      Product ID: " ++ str str_of_value (product_id device);
      "      Version: " ++ str str_of_value (version device);
      "      Speed: " ++ str str_of_value (speed device);
      "      Location: " ++ str str_of_value (location_id device) ] in
  let serial :=
    if eq_str (serial_number device) "Unknown"
    then []
    else [ "      Serial Number: " ++ str str_of_value (serial_number device) ] in
  (fields ++ serial)%list.

(** The lines of a report that found device files. *)
Definition devices_report (devices : ScanResult) : stdout :=
  let ports := serial_ports devices in
  let records := usb_devices devices in
  let head :=
    [ nl ++ rule;
      "🔌 ARDUINO DEVICE DETECTION RESULTS";
      rule;
      "✅ Found " ++ str_of_nat (total_devices devices) ++ " potential Arduino device(s)";
      nl ++ "📡 Serial Ports (" ++ str_of_nat (length ports) ++ "):" ] in
  let port_lines := map port_line (combine (seq 1 (length ports)) ports) in
  let details :=
    match records with
    | [] => []
    | _ :: _ =>
        (nl ++ "🔧 USB Device Details (" ++ str_of_nat (length records) ++ "):")
        :: flat_map device_lines (combine (seq 1 (length records)) records)
    end in
  let usage :=
    [ nl ++ "💻 Usage in Arduino IDE:";
      "   Use these ports in Arduino IDE > Tools > Port:" ] in
  let bullets := map (fun port => "   • " ++ port) (filter (contains "cu.") ports) in
  (head ++ port_lines ++ details ++ usage ++ bullets)%list.

End Lines.

End Notions.

(* ================================================================== *)
(** * Facts about the Python fragment *)
(* ================================================================== *)

Module PyFacts.
Import Py.

(** ** Substring test *)

Lemma startswith_iff (p s : string) :
  startswith p s = true <-> exists b, s = p ++ b.
Proof.
  revert s; induction p as [|a p IH]; intros s; simpl.
  - split; [intros _; now exists s | reflexivity].
  - destruct s as [|c s].
    + split; [discriminate | intros [b Hb]; discriminate].
    + rewrite andb_true_iff, Ascii.eqb_eq, IH. split.
      * intros [-> [b ->]]. now exists b.
      * intros [b Hb]. injection Hb as -> ->. split; [reflexivity | now exists b].
Qed.

Lemma contains_iff (sub s : string) :
  contains sub s = true <-> exists a b, s = a ++ sub ++ b.
Proof.
  induction s as [|c s IH].
  - cbn [contains]. rewrite orb_false_r, startswith_iff. split.
    + intros [b Hb]. now exists "", b.
    + intros [a [b Hb]]. destruct a; [now exists b | discriminate].
  - cbn [contains]. rewrite orb_true_iff, startswith_iff, IH. split.
    + intros [[b Hb] | [a [b Hb]]].
      * now exists "", b.
      * exists (String c a), b. simpl. now rewrite Hb.
    + intros [a [b Hb]]. destruct a as [|c' a].
      * left. now exists b.
      * right. simpl in Hb. injection Hb as _ Hb. now exists a, b.
Qed.

(** ** The fragment on concrete inputs *)

Example lower_mixed_case : lower "USB2.0-Serial" = "usb2.0-serial".
Proof. reflexivity. Qed.

Example lower_vendor_id : lower "0x1A86" = "0x1a86".
Proof. reflexivity. Qed.

Example contains_inside : contains "serial" "usb2.0-serial" = true.
Proof. reflexivity. Qed.

Example contains_absent : contains "serial" "keyboard" = false.
Proof. reflexivity. Qed.

Example contains_empty_needle : contains "" "" = true.
Proof. reflexivity. Qed.

Example sorted_set_ports :
  sorted (list_set ["/dev/tty.usbmodem1"; "/dev/cu.usbmodem1"; "/dev/tty.usbmodem1"])
  = ["/dev/cu.usbmodem1"; "/dev/tty.usbmodem1"].
Proof. reflexivity. Qed.

Example str_of_nat_12 : str_of_nat 12 = "12".
Proof. reflexivity. Qed.

(** ** The order on strings *)

Lemma ascii_compare_refl (c : ascii) : Ascii.compare c c = Eq.
Proof. unfold Ascii.compare. apply N.compare_refl. Qed.

Lemma ascii_compare_trans (c : comparison) (x y z : ascii) :
  Ascii.compare x y = c -> Ascii.compare y z = c -> Ascii.compare x z = c.
Proof.
  unfold Ascii.compare. destruct c; intros H1 H2.
  - apply N.compare_eq_iff in H1, H2. apply N.compare_eq_iff. congruence.
  - rewrite N.compare_lt_iff in *. lia.
  - rewrite N.compare_gt_iff in *. lia.
Qed.

Lemma ascii_compare_eq (x y : ascii) : Ascii.compare x y = Eq -> x = y.
Proof.
  unfold Ascii.compare. intros H. apply N.compare_eq_iff in H.
  rewrite <- (ascii_N_embedding x), <- (ascii_N_embedding y). now rewrite H.
Qed.

Lemma compare_refl (s : string) : String.compare s s = Eq.
Proof.
  induction s as [|c s IH]; simpl; [reflexivity|].
  now rewrite ascii_compare_refl.
Qed.

Lemma compare_lt_trans (x y z : string) :
  String.compare x y = Lt -> String.compare y z = Lt -> String.compare x z = Lt.
Proof.
  revert y z; induction x as [|a x IH]; intros [|b y] [|c z]; simpl;
    try discriminate; try reflexivity.
  destruct (Ascii.compare a b) eqn:Eab; try discriminate;
    destruct (Ascii.compare b c) eqn:Ebc; try discriminate; intros H1 H2.
  - apply ascii_compare_eq in Eab, Ebc. subst. rewrite ascii_compare_refl.
    eauto.
  - apply ascii_compare_eq in Eab. subst. now rewrite Ebc.
  - apply ascii_compare_eq in Ebc. subst. now rewrite Eab.
  - now rewrite (ascii_compare_trans Lt a b c).
Qed.

Lemma ltb_trans (x y z : string) :
  String.ltb x y = true -> String.ltb y z = true -> String.ltb x z = true.
Proof.
  unfold String.ltb. intros H1 H2.
  destruct (String.compare x y) eqn:E1; try discriminate.
  destruct (String.compare y z) eqn:E2; try discriminate.
  now rewrite (compare_lt_trans x y z).
Qed.

Lemma ltb_irrefl (x : string) : String.ltb x x = false.
Proof. unfold String.ltb. now rewrite compare_refl. Qed.

Lemma leb_ltb (x y : string) :
  String.leb x y = true <-> String.ltb x y = true \/ x = y.
Proof.
  unfold String.leb, String.ltb. split.
  - destruct (String.compare x y) eqn:E; try discriminate; intros _.
    + right. now apply String.compare_eq_iff.
    + now left.
  - intros [H | ->]; [|now rewrite compare_refl].
    destruct (String.compare x y); congruence.
Qed.

Lemma not_leb_ltb (x y : string) :
  String.leb x y = false -> String.ltb y x = true.
Proof.
  unfold String.leb, String.ltb. rewrite (String.compare_antisym y x).
  destruct (String.compare x y); simpl; congruence.
Qed.

End PyFacts.

(* ================================================================== *)
(** * The path scanner *)
(* ================================================================== *)

Module Scanner.
Import Py PyFacts ArduinoDetector.

Lemma insert_In (x y : string) (l : list string) :
  In y (insert x l) <-> y = x \/ In y l.
Proof.
  induction l as [|z l IH]; simpl.
  - intuition.
  - destruct (String.leb x z); simpl; rewrite ?IH; intuition.
Qed.

Lemma sorted_In (y : string) (l : list string) : In y (sorted l) <-> In y l.
Proof.
  induction l as [|x l IH]; simpl; [reflexivity|].
  rewrite insert_In, IH. intuition.
Qed.

Lemma insert_Permutation (x : string) (l : list string) :
  Permutation (x :: l) (insert x l).
Proof.
  induction l as [|z l IH]; simpl; [reflexivity|].
  destruct (String.leb x z); [reflexivity|].
  rewrite perm_swap. now constructor.
Qed.

Lemma sorted_Permutation (l : list string) : Permutation l (sorted l).
Proof.
  induction l as [|x l IH]; simpl; [constructor|].
  rewrite <- insert_Permutation. now constructor.
Qed.

Lemma insert_ascending (x : string) (l : list string) :
  ascending l -> ~ In x l -> ascending (insert x l).
Proof.
  unfold ascending. induction 1 as [|z l Hl IH Hz]; intros Hx; simpl.
  - repeat constructor.
  - destruct (String.leb x z) eqn:E.
    + apply leb_ltb in E as [E | ->]; [|simpl in Hx; tauto].
      constructor; [now constructor|].
      constructor; [exact E|].
      rewrite Forall_forall in *. intros w Hw. eapply ltb_trans; eauto.
    + apply not_leb_ltb in E.
      constructor; [apply IH; simpl in Hx; tauto|].
      rewrite Forall_forall in *. intros w Hw.
      apply insert_In in Hw as [-> | Hw]; auto.
Qed.

Lemma sorted_ascending (l : list string) : NoDup l -> ascending (sorted l).
Proof.
  induction 1 as [|x l Hx Hl IH]; simpl.
  - constructor.
  - apply insert_ascending; [exact IH|]. now rewrite sorted_In.
Qed.

(** Two strictly ascending lists with the same elements are equal. *)
Lemma ascending_unique (l1 l2 : list string) :
  ascending l1 -> ascending l2 -> (forall x, In x l1 <-> In x l2) -> l1 = l2.
Proof.
  unfold ascending. intros H1; revert l2.
  induction H1 as [|a l1 Hl1 IH Ha]; intros l2 H2 Helems.
  - destruct l2 as [|b l2]; [reflexivity|].
    exfalso. apply (Helems b). now left.
  - destruct H2 as [|b l2 Hl2 Hb].
    + exfalso. apply (Helems a). now left.
    + rewrite Forall_forall in Ha, Hb.
      assert (a = b) as <-.
      { destruct (proj1 (Helems a) (or_introl eq_refl)) as [E | Ia]; [now symmetry|].
        destruct (proj2 (Helems b) (or_introl eq_refl)) as [E | Ib]; [exact E|].
        pose proof (ltb_trans _ _ _ (Ha _ Ib) (Hb _ Ia)) as C.
        rewrite ltb_irrefl in C. discriminate. }
      f_equal. apply IH; [exact Hl2|].
      intros x. split; intros Hx.
      * destruct (proj1 (Helems x) (or_intror Hx)) as [<- | Hx']; [|exact Hx'].
        specialize (Ha _ Hx). rewrite ltb_irrefl in Ha. discriminate.
      * destruct (proj2 (Helems x) (or_intror Hx)) as [<- | Hx']; [|exact Hx'].
        specialize (Hb _ Hx). rewrite ltb_irrefl in Hb. discriminate.
Qed.

(** Whatever duplicate-free enumeration of the set is sorted, the result
    is the same. *)
Lemma sorted_set_order_irrelevant (l l' : list string) :
  NoDup l' -> (forall x, In x l' <-> In x l) -> sorted l' = sorted (list_set l).
Proof.
  intros Hnd Helems. apply ascending_unique.
  - now apply sorted_ascending.
  - apply sorted_ascending, NoDup_nodup.
  - intros x. unfold list_set. now rewrite !sorted_In, nodup_In.
Qed.

Lemma extend_loop (glob : string -> list string) (ps : list string) (acc : list string) :
  fold_left (fun usb_devices pattern => (usb_devices ++ glob pattern)%list) ps acc
  = (acc ++ flat_map glob ps)%list.
Proof.
  revert acc; induction ps as [|p ps IH]; intros acc; simpl.
  - now rewrite app_nil_r.
  - now rewrite IH, app_assoc.
Qed.

Lemma get_serial_ports_eq (glob : string -> list string) :
  get_serial_ports glob = sorted (list_set (flat_map glob patterns)).
Proof. unfold get_serial_ports. now rewrite extend_loop. Qed.

Lemma get_serial_ports_none (glob : string -> list string) :
  (forall pattern, In pattern patterns -> glob pattern = []) ->
  get_serial_ports glob = [].
Proof.
  intros Hnone. rewrite get_serial_ports_eq.
  assert (flat_map glob patterns = []) as ->; [|reflexivity].
  induction patterns as [|p ps IH]; simpl; [reflexivity|].
  rewrite (Hnone p) by now left. apply IH.
  intros q Hq. apply Hnone. now right.
Qed.

(** C6: for every filesystem state, [get_serial_ports] returns exactly
    the paths matched by some pattern of the fixed list, each once, in
    strictly ascending lexicographic order; the function is total, a
    pattern without matches adds nothing, and the result is empty when
    no pattern matches. *)
Theorem get_serial_ports_sorted_distinct (glob : string -> list string) :
  get_serial_ports glob = sorted (list_set (flat_map glob patterns))
  /\ (forall p, In p (get_serial_ports glob)
                <-> exists pattern, In pattern patterns /\ In p (glob pattern))
  /\ NoDup (get_serial_ports glob)
  /\ ascending (get_serial_ports glob)
  /\ ((forall pattern, In pattern patterns -> glob pattern = []) ->
      get_serial_ports glob = []).
Proof.
  rewrite get_serial_ports_eq. split; [reflexivity|]. split; [|split; [|split]].
  - intros p. unfold list_set. rewrite sorted_In, nodup_In, in_flat_map.
    reflexivity.
  - eapply Permutation_NoDup; [apply sorted_Permutation|].
    apply NoDup_nodup.
  - apply sorted_ascending, NoDup_nodup.
  - rewrite <- get_serial_ports_eq. apply get_serial_ports_none.
Qed.

Lemma get_serial_ports_sorted_distinct_witness :
  get_serial_ports
    (fun pattern =>
       if String.eqb pattern "/dev/cu.usbmodem*"
       then ["/dev/cu.usbmodem21"; "/dev/cu.usbmodem1101"]
       else if String.eqb pattern "/dev/tty.usbmodem*"
            then ["/dev/tty.usbmodem21"; "/dev/tty.usbmodem1101"]
            else [])
  = ["/dev/cu.usbmodem1101"; "/dev/cu.usbmodem21";
     "/dev/tty.usbmodem1101"; "/dev/tty.usbmodem21"]
  /\ get_serial_ports (fun _ => []) = [].
Proof.
  split.
  - rewrite (proj1 (get_serial_ports_sorted_distinct _)). reflexivity.
  - apply (proj2 (proj2 (proj2 (proj2 (get_serial_ports_sorted_distinct _))))).
    reflexivity.
Defined.

End Scanner.

(* ================================================================== *)
(** * The USB topology classifier *)
(* ================================================================== *)

Module Classifier.
Import Py PyFacts ArduinoDetector Topology Notions.

(** ** The loop of [search_usb_tree], one iteration at a time *)

Lemma search_usb_tree_nil (acc : list CandidateDevice) :
  search_usb_tree (JArr []) acc = Return acc.
Proof. reflexivity. Qed.

Lemma search_usb_tree_cons (item : list (string * json)) (rest : list json)
      (acc : list CandidateDevice) :
  search_usb_tree (JArr (JObj item :: rest)) acc
  = (acc1 <- classify item acc ;;
     acc2 <- search_items item acc1 ;;
     search_usb_tree (JArr rest) acc2).
Proof.
  cbn [search_usb_tree]. destruct (classify item acc) as [acc1|e]; [|reflexivity].
  cbn [bind]. unfold search_items.
  f_equal.
  induction item as [|[k v] item IH]; [reflexivity|].
  cbn [dict_find]. destruct (String.eqb k "_items"); [reflexivity|exact IH].
Qed.

Lemma search_item_obj (d : list (string * json)) (acc : list CandidateDevice) :
  search_item (JObj d) acc = (acc1 <- classify d acc ;; search_items d acc1).
Proof.
  unfold search_item, search_items, py_in, py_index, dict_mem.
  destruct (classify d acc) as [acc1|e]; [|reflexivity].
  cbn [bind]. now destruct (dict_find d "_items").
Qed.

(** The recursive equation of [search_usb_tree] in the operations of
    [Py]: iterate over [items] and run the loop body on each element. *)
Lemma search_usb_tree_unfold (items : json) (acc : list CandidateDevice) :
  search_usb_tree items acc
  = (elems <- py_iter items ;; for_each search_item elems acc).
Proof.
  destruct items as [| b | n | s | elems | d]; try reflexivity.
  - destruct s; reflexivity.
  - cbn [py_iter bind]. revert acc.
    induction elems as [|item rest IH]; intros acc; [reflexivity|].
    cbn [for_each].
    destruct item as [| b | n | s | l | d]; try reflexivity.
    rewrite search_usb_tree_cons, search_item_obj.
    destruct (classify d acc) as [acc1|e]; [|reflexivity].
    cbn [bind]. destruct (search_items d acc1) as [acc2|e]; [|reflexivity].
    cbn [bind]. apply IH.
  - destruct d; reflexivity.
Qed.

(** ** Typed nodes *)

Lemma node_json_members (n : USBDeviceNode) : node_json n = JObj (node_members n).
Proof. destruct n; reflexivity. Qed.

Lemma dict_find_attr (k : string) (v : option string) (d : list (string * json))
      (key : string) :
  dict_find (attr k v ++ d)%list key
  = if String.eqb k key
    then match v with Some s => Some (JStr s) | None => dict_find d key end
    else dict_find d key.
Proof.
  destruct v as [s|]; simpl.
  - now destruct (String.eqb k key).
  - now destruct (String.eqb k key).
Qed.

Ltac find_attr n :=
  unfold node_members; rewrite ?dict_find_attr;
  cbn [String.eqb Ascii.eqb Bool.eqb]; cbn [dict_find];
  repeat match goal with
         | |- context [match ?f n with _ => _ end] => destruct (f n)
         end;
  reflexivity.

Lemma find_name n :
  dict_find (node_members n) "_name" = option_map JStr (node_name n).
Proof. find_attr n. Qed.

Lemma find_vendor_id n :
  dict_find (node_members n) "vendor_id" = option_map JStr (node_vendor_id n).
Proof. find_attr n. Qed.

Lemma find_product_id n :
  dict_find (node_members n) "product_id" = option_map JStr (node_product_id n).
Proof. find_attr n. Qed.

Lemma find_bcd_device n :
  dict_find (node_members n) "bcd_device" = option_map JStr (node_bcd_device n).
Proof. find_attr n. Qed.

Lemma find_speed n :
  dict_find (node_members n) "speed" = option_map JStr (node_speed n).
Proof. find_attr n. Qed.

Lemma find_location_id n :
  dict_find (node_members n) "location_id" = option_map JStr (node_location_id n).
Proof. find_attr n. Qed.

Lemma find_serial_num n :
  dict_find (node_members n) "serial_num" = option_map JStr (node_serial_num n).
Proof. find_attr n. Qed.

Lemma find_items n :
  dict_find (node_members n) "_items" = option_map nodes_json (node_items n).
Proof. find_attr n. Qed.

Lemma get_attr (d : list (string * json)) (key : string) (v : option string)
      (default : string) :
  dict_find d key = option_map JStr v ->
  dict_get d key (JStr default)
  = JStr (match v with Some s => s | None => default end).
Proof. unfold dict_get. intros ->. now destruct v. Qed.

Lemma lower_attr (d : list (string * json)) (key : string) (v : option string) :
  dict_find d key = option_map JStr v ->
  str_lower (dict_get d key (JStr "")) = Return (normalized v).
Proof. intros H. now rewrite (get_attr _ _ _ _ H). Qed.

Lemma device_info_node (n : USBDeviceNode) :
  device_info (node_members n) (normalized (node_vendor_id n)) = candidate n.
Proof.
  unfold device_info, candidate, or_unknown.
  rewrite (get_attr _ _ _ _ (find_name n)), (get_attr _ _ _ _ (find_vendor_id n)),
    (get_attr _ _ _ _ (find_product_id n)), (get_attr _ _ _ _ (find_bcd_device n)),
    (get_attr _ _ _ _ (find_speed n)), (get_attr _ _ _ _ (find_location_id n)),
    (get_attr _ _ _ _ (find_serial_num n)).
  reflexivity.
Qed.

(** On the encoding of a node the first half of the loop body never
    raises: it appends the node's record exactly when the node matches. *)
Lemma classify_node (n : USBDeviceNode) (acc : list CandidateDevice) :
  classify (node_members n) acc
  = Return (acc ++ if matches n then [candidate n] else [])%list.
Proof.
  unfold classify.
  rewrite (lower_attr _ _ _ (find_vendor_id n)), (lower_attr _ _ _ (find_product_id n)),
    (lower_attr _ _ _ (find_name n)).
  cbn [bind]. rewrite device_info_node. fold (matches n).
  destruct (matches n); [reflexivity | now rewrite app_nil_r].
Qed.

(** ** Induction on trees *)

Lemma In_list_sum (A : Type) (f : A -> nat) (x : A) (l : list A) :
  In x l -> f x <= list_sum (map f l).
Proof.
  induction l as [|y l IH]; intros Hx; [destruct Hx|].
  simpl. destruct Hx as [-> | Hx]; [lia | specialize (IH Hx); lia].
Qed.

Lemma child_size (n c : USBDeviceNode) :
  In c (children n) -> node_size c < node_size n.
Proof.
  destruct n as [nm vid pid bcd sp loc ser items]. unfold children.
  cbn [node_items]. destruct items as [cs|]; [|intros []].
  intros Hc. apply (In_list_sum _ node_size) in Hc.
  change (node_size (Node nm vid pid bcd sp loc ser (Some cs)))
    with (S (list_sum (map node_size cs))).
  lia.
Qed.

Lemma node_induction (P : USBDeviceNode -> Prop) :
  (forall n, Forall P (children n) -> P n) -> forall n, P n.
Proof.
  intros step n.
  assert (forall k m, node_size m < k -> P m) as H; [|apply (H (S (node_size n))); lia].
  induction k as [|k IH]; intros m Hm; [lia|].
  apply step, Forall_forall. intros c Hc.
  apply IH. apply child_size in Hc. lia.
Qed.

(** ** The classifier on trees *)

Lemma subtree_children (n : USBDeviceNode) :
  subtree n = n :: flat_map subtree (children n).
Proof. destruct n as [nm vid pid bcd sp loc ser [cs|]]; reflexivity. Qed.

Lemma found_cons (n : USBDeviceNode) (rest : list USBDeviceNode) :
  found (n :: rest)
  = ((if matches n then [candidate n] else []) ++ found (children n) ++ found rest)%list.
Proof.
  unfold found, preorder. cbn [flat_map].
  rewrite filter_app, map_app, app_assoc. f_equal.
  rewrite subtree_children. cbn [filter].
  destruct (matches n); reflexivity.
Qed.

Lemma found_app (ms ns : list USBDeviceNode) :
  found (ms ++ ns) = (found ms ++ found ns)%list.
Proof. unfold found, preorder. now rewrite flat_map_app, filter_app, map_app. Qed.

Lemma search_node (n : USBDeviceNode) :
  forall (rest : list json) (acc : list CandidateDevice),
    search_usb_tree (JArr (node_json n :: rest)) acc
    = search_usb_tree (JArr rest) (acc ++ found [n]).
Proof.
  induction n as [n IH] using node_induction. intros rest acc.
  assert (forall acc', search_usb_tree (nodes_json (children n)) acc'
                       = Return (acc' ++ found (children n))%list) as Hcs.
  { induction IH as [|c cs Hc _ IHcs]; intros acc'.
    - cbn. now rewrite app_nil_r.
    - unfold nodes_json in *. cbn [map]. rewrite Hc, IHcs.
      change (c :: cs) with ([c] ++ cs)%list.
      now rewrite found_app, app_assoc. }
  rewrite node_json_members, search_usb_tree_cons, classify_node. cbn [bind].
  unfold search_items. rewrite find_items.
  rewrite found_cons. change (found []) with (@nil CandidateDevice).
  rewrite app_nil_r.
  unfold children in *. destruct (node_items n) as [cs|]; cbn [option_map].
  - rewrite Hcs. cbn [bind]. now rewrite <- app_assoc.
  - cbn [bind]. now rewrite app_nil_r.
Qed.

Lemma search_nodes (ns : list USBDeviceNode) (acc : list CandidateDevice) :
  search_usb_tree (nodes_json ns) acc = Return (acc ++ found ns)%list.
Proof.
  revert acc; induction ns as [|n ns IH]; intros acc.
  - cbn. now rewrite app_nil_r.
  - unfold nodes_json in *. cbn [map]. rewrite search_node, IH.
    change (n :: ns) with ([n] ++ ns)%list.
    now rewrite found_app, app_assoc.
Qed.

Lemma found_length (ns : list USBDeviceNode) :
  length (found ns) = count_matching_all ns.
Proof.
  assert (forall n, length (found [n]) = count_matching n) as Hnode.
  { induction n as [n IH] using node_induction.
    rewrite found_cons. change (found []) with (@nil CandidateDevice).
    rewrite app_nil_r, length_app.
    assert (length (found (children n)) = count_matching_all (children n)) as ->.
    { induction IH as [|c cs Hc _ IHcs]; [reflexivity|].
      change (c :: cs) with ([c] ++ cs)%list.
      rewrite found_app, length_app, Hc, IHcs. reflexivity. }
    destruct n as [nm vid pid bcd sp loc ser [cs|]]; cbn [count_matching node_items];
      unfold children; cbn [node_items];
      destruct (matches _); reflexivity. }
  induction ns as [|n ns IH]; [reflexivity|].
  change (n :: ns) with ([n] ++ ns)%list.
  rewrite found_app, length_app, Hnode, IH. reflexivity.
Qed.






(** ** The bus loop of [get_usb_device_info] *)

Lemma bus_loop (buses : list USBDeviceNode) (acc : list CandidateDevice) :
  for_each (fun bus arduino_devices =>
              has_items <- py_in "_items" bus ;;
              if has_items : bool
              then items <- py_index bus "_items" ;; search_usb_tree items arduino_devices
              else Return arduino_devices)
           (map node_json buses) acc
  = Return (acc ++ found (flat_map children buses))%list.
Proof.
  revert acc; induction buses as [|bus buses IH]; intros acc.
  - cbn. now rewrite app_nil_r.
  - cbn [map for_each flat_map]. rewrite node_json_members.
    cbn [py_in py_index bind]. unfold dict_mem. rewrite find_items.
    rewrite found_app, app_assoc.
    unfold children. destruct (node_items bus) as [cs|]; cbn [option_map bind].
    + rewrite search_nodes. cbn [bind]. apply IH.
    + change (found []) with (@nil CandidateDevice). rewrite app_nil_r. apply IH.
Qed.

Lemma get_usb_device_info_buses (buses : list USBDeviceNode) :
  get_usb_device_info (Parsed (usb_data_of buses))
  = ret (found (flat_map children buses)).
Proof.
  unfold get_usb_device_info, get_usb_device_info_try, usb_data_of, nodes_json.
  cbn [run_and_load bind py_get dict_get dict_find String.eqb Ascii.eqb Bool.eqb py_iter].
  now rewrite bus_loop.
Qed.

(** ** The chipset table *)

Lemma ARDUINO_IDS_find (k label : string) :
  dict_find ARDUINO_IDS k = Some label
  <-> (k = "0x2341" /\ label = "Arduino")
      \/ (k = "0x1a86" /\ label = "CH340/CH341")
      \/ (k = "0x0403" /\ label = "FTDI")
      \/ (k = "0x10c4" /\ label = "Silicon Labs")
      \/ (k = "0x067b" /\ label = "Prolific").
Proof.
  unfold ARDUINO_IDS. cbn [dict_find]. split.
  - repeat match goal with
           | |- context [String.eqb ?a k] => destruct (String.eqb_spec a k)
           end; intros H; try discriminate; injection H as <-; subst k; tauto.
  - intros [[-> ->] | [[-> ->] | [[-> ->] | [[-> ->] | [-> ->]]]]]; reflexivity.
Qed.

Lemma label_not_Unknown (k label : string) :
  dict_find ARDUINO_IDS k = Some label -> label <> "Unknown".
Proof.
  rewrite ARDUINO_IDS_find.
  intros [[_ ->] | [[_ ->] | [[_ ->] | [[_ ->] | [_ ->]]]]]; discriminate.
Qed.

Lemma search_single (n : USBDeviceNode) :
  search_usb_tree (nodes_json [n]) []
  = Return ((if matches n then [candidate n] else []) ++ found (children n))%list.
Proof.
  rewrite search_nodes, found_cons. change (found []) with (@nil CandidateDevice).
  now rewrite app_nil_r.
Qed.

Lemma mem_find (k : string) :
  dict_mem ARDUINO_IDS k = true <-> exists label, dict_find ARDUINO_IDS k = Some label.
Proof.
  unfold dict_mem. destruct (dict_find ARDUINO_IDS k) as [label|]; split.
  - now exists label.
  - reflexivity.
  - discriminate.
  - intros [label H]. discriminate.
Qed.

(** ** The claims on the classifier *)

(** C2 (as amended): the table has exactly five entries, keyed by the
    lower-case vendor IDs with their [0x] prefix, 0x2341, 0x1a86, 0x0403,
    0x10c4 and 0x067b, with the labels "Arduino", "CH340/CH341", "FTDI",
    "Silicon Labs" and "Prolific"; a node whose vendor ID lower-cases to
    one of these keys is reported with exactly that label. *)
Theorem chipset_table_labels :
  (forall k label,
      dict_find ARDUINO_IDS k = Some label
      <-> (k = "0x2341" /\ label = "Arduino")
          \/ (k = "0x1a86" /\ label = "CH340/CH341")
          \/ (k = "0x0403" /\ label = "FTDI")
          \/ (k = "0x10c4" /\ label = "Silicon Labs")
          \/ (k = "0x067b" /\ label = "Prolific"))
  /\ (forall n k label,
         node_vendor_id n = Some k ->
         dict_find ARDUINO_IDS (lower k) = Some label ->
         exists d,
           search_usb_tree (nodes_json [n]) [] = Return (d :: found (children n))
           /\ manufacturer d = label).
Proof.
  split; [exact ARDUINO_IDS_find|].
  intros n k label Hk Hlabel. exists (candidate n).
  assert (normalized (node_vendor_id n) = lower k) as Hnorm by now rewrite Hk.
  rewrite search_single. split.
  - replace (matches n) with true; [reflexivity|].
    symmetry. unfold matches, is_arduino.
    rewrite (proj2 (mem_find _)); [reflexivity|].
    exists label. now rewrite Hnorm.
  - cbn [candidate manufacturer]. now rewrite Hnorm, Hlabel.
Qed.

Lemma chipset_table_labels_witness :
  exists d,
    search_usb_tree (nodes_json [device (Some "Nano clone") (Some "0x1A86") None]) []
    = Return [d]
    /\ manufacturer d = "CH340/CH341".
Proof.
  apply (proj2 chipset_table_labels
           (device (Some "Nano clone") (Some "0x1A86") None) "0x1A86" "CH340/CH341");
    reflexivity.
Defined.

(** C2, the claim as stated fails: the key 2341 without its prefix has
    no entry, so a node carrying it is not even a candidate, and the
    labels of 0x2341, 0x10c4 and 0x067b are "Arduino", "Silicon Labs"
    and "Prolific", not "Arduino (official)", "Silicon Labs CP210x" and
    "Prolific PL2303". *)
Lemma chipset_table_labels_differ :
  dict_find ARDUINO_IDS "2341" = None
  /\ search_usb_tree (nodes_json [device None (Some "2341") None]) [] = Return []
  /\ (exists d,
         search_usb_tree (nodes_json [device None (Some "0x2341") None]) [] = Return [d]
         /\ manufacturer d = "Arduino"
         /\ manufacturer d <> "Arduino (official)")
  /\ (exists d,
         search_usb_tree (nodes_json [device None (Some "0x10c4") None]) [] = Return [d]
         /\ manufacturer d = "Silicon Labs"
         /\ manufacturer d <> "Silicon Labs CP210x")
  /\ (exists d,
         search_usb_tree (nodes_json [device None (Some "0x067b") None]) [] = Return [d]
         /\ manufacturer d = "Prolific"
         /\ manufacturer d <> "Prolific PL2303").
Proof.
  split; [reflexivity|]. split; [reflexivity|].
  split; [|split];
    (eexists; split; [reflexivity | split; [reflexivity | discriminate]]).
Qed.



(** C4: a node satisfies the classification predicate if and only if
    its lower-cased vendor ID has an entry in the table or its
    lower-cased name contains "arduino", "serial", "ch340", "ftdi" or
    "usb2.0-serial"; the loop body appends the node's record exactly in
    that case.  A node with vendor ID 0x1a86 matches whatever its name, a
    node named "USB2.0-Serial" matches whatever its vendor ID, and a node
    with vendor ID 0x05ac named "Keyboard" does not match. *)
Theorem classification_predicate (n : USBDeviceNode) :
  (forall acc,
      classify (node_members n) acc
      = Return (acc ++ if matches n then [candidate n] else [])%list)
  /\ (matches n = true
      <-> (exists label, dict_find ARDUINO_IDS (normalized (node_vendor_id n)) = Some label)
          \/ occurs_in "arduino" (normalized (node_name n))
          \/ occurs_in "serial" (normalized (node_name n))
          \/ occurs_in "ch340" (normalized (node_name n))
          \/ occurs_in "ftdi" (normalized (node_name n))
          \/ occurs_in "usb2.0-serial" (normalized (node_name n)))
  /\ (forall m, node_vendor_id m = Some "0x1a86" ->
                matches m = true /\ manufacturer (candidate m) = "CH340/CH341")
  /\ (forall m, node_name m = Some "USB2.0-Serial" -> matches m = true)
  /\ (forall m, node_vendor_id m = Some "0x05ac" -> node_name m = Some "Keyboard" ->
                matches m = false).
Proof.
  split; [intros acc; apply classify_node|]. split; [|split; [|split]].
  - unfold matches, is_arduino, occurs_in.
    rewrite !orb_true_iff, !contains_iff, mem_find. tauto.
  - intros m Hm. unfold matches, candidate, is_arduino. cbn [manufacturer].
    rewrite Hm. split; reflexivity.
  - intros m Hm. unfold matches, is_arduino. rewrite Hm.
    destruct (dict_mem ARDUINO_IDS _); reflexivity.
  - intros m Hv Hm. unfold matches, is_arduino. rewrite Hv, Hm. reflexivity.
Qed.

Lemma classification_predicate_witness :
  matches (device (Some "Generic board") (Some "0x1a86") None) = true
  /\ matches (device (Some "USB2.0-Serial") (Some "0xffff") None) = true
  /\ matches (device (Some "Keyboard") (Some "0x05ac") None) = false.
Proof.
  pose proof (classification_predicate (device None None None)) as (_ & _ & H1 & H2 & H3).
  split; [apply H1; reflexivity | split; [apply H2 | apply H3]; reflexivity].
Defined.



(** The defaults on a typed node, whose attributes are all strings: the
    record of a matching node holds each attribute, or "Unknown" for an
    absent one. *)
Lemma node_record_defaults (n : USBDeviceNode) :
  matches n = true ->
  exists d,
    search_usb_tree (nodes_json [n]) [] = Return (d :: found (children n))
    /\ copied (node_name n) (name d)
    /\ copied (node_vendor_id n) (vendor_id d)
    /\ copied (node_product_id n) (product_id d)
    /\ copied (node_bcd_device n) (version d)
    /\ copied (node_speed n) (speed d)
    /\ copied (node_location_id n) (location_id d)
    /\ copied (node_serial_num n) (serial_number d)
    /\ (manufacturer d = "Unknown"
        <-> node_vendor_id n = None
            \/ dict_find ARDUINO_IDS (normalized (node_vendor_id n)) = None).
Proof.
  intros Hn. exists (device_info (node_members n) (normalized (node_vendor_id n))).
  split; [rewrite search_single, Hn, device_info_node; reflexivity|].
  unfold device_info.
  cbn [name vendor_id product_id version speed location_id serial_number manufacturer].
  rewrite (get_attr _ _ _ _ (find_name n)), (get_attr _ _ _ _ (find_vendor_id n)),
    (get_attr _ _ _ _ (find_product_id n)), (get_attr _ _ _ _ (find_bcd_device n)),
    (get_attr _ _ _ _ (find_speed n)), (get_attr _ _ _ _ (find_location_id n)),
    (get_attr _ _ _ _ (find_serial_num n)).
  repeat (split; [match goal with |- copied ?a _ => now destruct a end|]).
  unfold dict_get.
  destruct (dict_find ARDUINO_IDS (normalized (node_vendor_id n))) as [label|] eqn:E.
  - split.
    + intros ->. now apply label_not_Unknown in E.
    + intros [Hv | Hv]; [|discriminate].
      rewrite Hv in E. discriminate.
  - split; auto.
Qed.

(** C7 (as amended): for every node, a dict with whatever other
    entries, that satisfies the predicate and whose name, vendor ID and
    product ID are each absent or a string, the loop body appends one
    record and goes on to the children.  Each of name, vendor ID,
    product ID, version, speed, location and serial number of the record
    is the node's entry as it is, whatever its type, or "Unknown" when
    the node has no such entry; the manufacturer is "Unknown" exactly
    when the vendor ID is absent or its lower-cased form has no entry in
    the table.  A missing attribute never raises, and neither does a
    version, speed, location or serial number that is not a string. *)
Theorem candidate_defaults (item : list (string * json)) (acc : list CandidateDevice) :
  text_or_absent item "_name" = true ->
  text_or_absent item "vendor_id" = true ->
  text_or_absent item "product_id" = true ->
  is_arduino (lowered item "vendor_id") (lowered item "_name") = true ->
  exists d,
    classify item acc = Return (acc ++ [d])%list
    /\ search_usb_tree (JArr [JObj item]) acc = search_items item (acc ++ [d])%list
    /\ taken_from item "_name" (name d)
    /\ taken_from item "vendor_id" (vendor_id d)
    /\ taken_from item "product_id" (product_id d)
    /\ taken_from item "bcd_device" (version d)
    /\ taken_from item "speed" (speed d)
    /\ taken_from item "location_id" (location_id d)
    /\ taken_from item "serial_num" (serial_number d)
    /\ (manufacturer d = "Unknown"
        <-> dict_find item "vendor_id" = None
            \/ dict_find ARDUINO_IDS (lowered item "vendor_id") = None).
Proof.
  intros Hname Hvid Hpid Hmatch.
  exists (device_info item (lowered item "vendor_id")).
  assert (classify item acc
          = Return (acc ++ [device_info item (lowered item "vendor_id")])%list) as Hc.
  { unfold classify, text_or_absent, lowered, dict_get in *.
    destruct (dict_find item "vendor_id") as [[| b | z | v | l | m]|];
      try discriminate;
      destruct (dict_find item "product_id") as [[| b' | z' | p | l' | m']|];
      try discriminate;
      destruct (dict_find item "_name") as [[| b'' | z'' | n | l'' | m'']|];
      try discriminate;
      cbn [str_lower bind lower]; now rewrite Hmatch. }
  split; [exact Hc|]. split.
  { rewrite search_usb_tree_cons, Hc. cbn [bind].
    now destruct (search_items item _). }
  unfold device_info, taken_from, dict_get.
  cbn [name vendor_id product_id version speed location_id serial_number manufacturer].
  repeat (split; [match goal with
                  | |- match dict_find item ?k with _ => _ end =>
                      now destruct (dict_find item k)
                  end|]).
  unfold lowered, text_or_absent in *.
  destruct (dict_find item "vendor_id") as [[| b | z | v | l | m]|]; try discriminate.
  - destruct (dict_find ARDUINO_IDS (lower v)) as [label|] eqn:E.
    + split.
      * intros ->. now apply label_not_Unknown in E.
      * intros [H | H]; discriminate.
    + split; auto.
  - split; [now left | reflexivity].
Qed.

Lemma candidate_defaults_witness :
  exists d,
    classify [("_name", JStr "USB2.0-Serial"); ("bcd_device", JNum 254);
              ("Media", JArr [])] []
    = Return [d]
    /\ name d = JStr "USB2.0-Serial"
    /\ vendor_id d = JStr "Unknown"
    /\ version d = JNum 254
    /\ serial_number d = JStr "Unknown"
    /\ manufacturer d = "Unknown".
Proof.
  destruct (candidate_defaults
              [("_name", JStr "USB2.0-Serial"); ("bcd_device", JNum 254);
               ("Media", JArr [])] [] eq_refl eq_refl eq_refl eq_refl)
    as (d & Hd & _ & Hname & Hvid & _ & Hver & _ & _ & Hser & Hman).
  exists d. repeat split; try assumption.
  apply Hman. now left.
Defined.

(** C7, the claim as stated fails: a node named "USB Serial", which
    satisfies the predicate by its name, with a product ID that is a
    number instead of a string, makes the search raise [AttributeError];
    the [except] clause does not catch it, so it leaves
    [get_usb_device_info]. *)
Lemma malformed_attribute_raises :
  is_arduino (lower "") (lower "USB Serial") = true
  /\ search_usb_tree
       (JArr [JObj [("_name", JStr "USB Serial"); ("product_id", JNum 29987)]]) []
     = Raise AttributeError
  /\ get_usb_device_info
       (Parsed
          (JObj [("SPUSBDataType",
                  JArr [JObj [("_name", JStr "USB31Bus");
                              ("_items",
                               JArr [JObj [("_name", JStr "USB Serial");
                                           ("product_id", JNum 29987)]])]])]))
     = ([], Raise AttributeError).
Proof. repeat split. Qed.



End Classifier.

(* ================================================================== *)
(** * The scan and its report *)
(* ================================================================== *)

Module Report.
Import Py PyFacts ArduinoDetector Topology.

Section WithStr.

Variable str_of_value : json -> string.

(** ** What is printed first *)

Lemma print_then {A} (x : string) (m : M A) :
  fst (print x ;;; m) = x :: fst m.
Proof. now destruct m as [out [a|e]]. Qed.

Lemma print_device_info_zero (devices : ScanResult) :
  total_devices devices = 0 ->
  print_device_info str_of_value devices = (no_devices_report, Return tt).
Proof. intros H. unfold print_device_info. now rewrite H. Qed.

Lemma print_device_info_nonzero (devices : ScanResult) :
  total_devices devices <> 0 ->
  nth_error (fst (print_device_info str_of_value devices)) 3
  = Some ("✅ Found " ++ str_of_nat (total_devices devices)
          ++ " potential Arduino device(s)").
Proof.
  intros H. unfold print_device_info.
  destruct (Nat.eqb_spec (total_devices devices) 0) as [E|_]; [contradiction|].
  now rewrite !print_then.
Qed.

Lemma detect_returns (glob : string -> list string) (c : usb_info)
      (out : stdout) (devs : list CandidateDevice) :
  get_usb_device_info c = (out, Return devs) ->
  detect_arduino_devices glob c
  = ("🔍 Scanning for Arduino devices..." :: out,
     Return {| serial_ports := get_serial_ports glob;
               usb_devices := devs;
               total_devices := length (get_serial_ports glob) |}).
Proof.
  intros H. unfold detect_arduino_devices. rewrite H. cbn.
  now rewrite app_nil_r.
Qed.

(** A run that finds one port and one board. *)
Example report_one_board :
  main str_of_value
       (fun pattern =>
          if String.eqb pattern "/dev/cu.usbmodem*" then ["/dev/cu.usbmodem1101"]
          else if String.eqb pattern "/dev/tty.usbmodem*" then ["/dev/tty.usbmodem1101"]
               else [])
       (Parsed
          (JObj [("SPUSBDataType",
                  JArr [JObj [("_name", JStr "USB31Bus");
                              ("_items",
                               JArr [JObj [("_name", JStr "Arduino Uno");
                                           ("vendor_id", JStr "0x2341");
                                           ("product_id", JStr "0x0043");
                                           ("serial_num", JStr "85735313")]])]])]))
  = ([ "Arduino Device Enumerator for macOS";
       "Created for detecting Arduino Uno and compatible devices";
       "🔍 Scanning for Arduino devices...";
       nl ++ rule;
       "🔌 ARDUINO DEVICE DETECTION RESULTS";
       rule;
       "✅ Found 2 potential Arduino device(s)";
       nl ++ "📡 Serial Ports (2):";
       "   1. /dev/cu.usbmodem1101";
       "   2. /dev/tty.usbmodem1101";
       nl ++ "🔧 USB Device Details (1):";
       nl ++ "   Device 1:";
       "      Name: Arduino Uno";
       "      Manufacturer: Arduino";
       "      Vendor ID: 0x2341";
       "      Product ID: 0x0043";
       "      Version: Unknown";
       "      Speed: Unknown";
       "      Location: Unknown";
       "      Serial Number: 85735313";
       nl ++ "💻 Usage in Arduino IDE:";
       "   Use these ports in Arduino IDE > Tools > Port:";
       "   • /dev/cu.usbmodem1101";
       nl ++ rule ],
     Return tt).
Proof. reflexivity. Qed.

(** Output that parses but is not a dict is not recovered either. *)
Example unexpected_shape_raises :
  get_usb_device_info (Parsed (JArr [])) = ([], Raise AttributeError).
Proof. reflexivity. Qed.

(** ** The claims on failures and on the report *)

(** C1: what [get_usb_device_info] does with each failure of the
    profiler.  A non-zero exit and an output that is not JSON are caught:
    one line is printed, the result is the empty list, and
    [detect_arduino_devices] returns the path scanner's ports.  A command
    that cannot be executed raises [FileNotFoundError], which the
    [except] clause does not list: the exception leaves
    [get_usb_device_info], [detect_arduino_devices] and [main], and no
    report is printed. *)
Theorem collaborator_failures (glob : string -> list string) (msg : string) :
  get_usb_device_info (NonZeroExit msg)
  = (["Error getting USB device info: " ++ msg], Return [])
  /\ get_usb_device_info (InvalidJSON msg)
     = (["Error getting USB device info: " ++ msg], Return [])
  /\ detect_arduino_devices glob (NonZeroExit msg)
     = (["🔍 Scanning for Arduino devices...";
         "Error getting USB device info: " ++ msg],
        Return {| serial_ports := get_serial_ports glob;
                  usb_devices := [];
                  total_devices := length (get_serial_ports glob) |})
  /\ detect_arduino_devices glob (InvalidJSON msg)
     = (["🔍 Scanning for Arduino devices...";
         "Error getting USB device info: " ++ msg],
        Return {| serial_ports := get_serial_ports glob;
                  usb_devices := [];
                  total_devices := length (get_serial_ports glob) |})
  /\ get_usb_device_info (CommandNotFound msg) = ([], Raise (FileNotFoundError msg))
  /\ detect_arduino_devices glob (CommandNotFound msg)
     = (["🔍 Scanning for Arduino devices..."], Raise (FileNotFoundError msg))
  /\ main str_of_value glob (CommandNotFound msg)
     = (["Arduino Device Enumerator for macOS";
         "Created for detecting Arduino Uno and compatible devices";
         "🔍 Scanning for Arduino devices..."],
        Raise (FileNotFoundError msg)).
Proof. repeat split. Qed.

(** C8: a scan result whose device-file count is zero is reported with
    the notice and the three tips and nothing else: none of these lines
    is a header or an entry of the list sections.  A scan with no
    filesystem match and no matching node gives such a result. *)
Theorem no_devices_branch :
  (forall devices,
      total_devices devices = 0 ->
      print_device_info str_of_value devices = (no_devices_report, Return tt))
  /\ Forall (fun line =>
               contains "Found " line = false
               /\ contains "Serial Ports" line = false
               /\ contains "USB Device Details" line = false
               /\ contains "Device 1" line = false
               /\ contains "Usage in Arduino IDE" line = false
               /\ contains "/dev/" line = false)
            no_devices_report
  /\ (forall glob buses,
         (forall pattern, In pattern patterns -> glob pattern = []) ->
         count_matching_all (flat_map children buses) = 0 ->
         exists devices,
           detect_arduino_devices glob (Parsed (usb_data_of buses))
           = (["🔍 Scanning for Arduino devices..."], Return devices)
           /\ serial_ports devices = []
           /\ usb_devices devices = []
           /\ total_devices devices = 0
           /\ print_device_info str_of_value devices = (no_devices_report, Return tt)).
Proof.
  split; [exact print_device_info_zero|]. split.
  - repeat constructor.
  - intros glob buses Hglob Hcount.
    pose proof (Scanner.get_serial_ports_none glob Hglob) as Hnone.
    eexists. split.
    + apply detect_returns, Classifier.get_usb_device_info_buses.
    + cbn [serial_ports usb_devices total_devices]. rewrite Hnone.
      rewrite <- Classifier.found_length in Hcount.
      apply length_zero_iff_nil in Hcount. rewrite Hcount.
      repeat split.
Qed.

(** C9: the count of devices is the number of device-file paths, and
    it alone selects the branch of the report.  For a scan result built
    by [detect_arduino_devices] the report is the no-devices notice
    exactly when the path list is empty, whatever the list of USB
    records; the whole run then prints the notice and no record, even
    when the classifier found some. *)
Theorem zero_branch_ignores_usb_devices :
  (forall glob c out devs,
      get_usb_device_info c = (out, Return devs) ->
      detect_arduino_devices glob c
      = ("🔍 Scanning for Arduino devices..." :: out,
         Return {| serial_ports := get_serial_ports glob;
                   usb_devices := devs;
                   total_devices := length (get_serial_ports glob) |}))
  /\ (forall ports devs,
         print_device_info str_of_value
           {| serial_ports := ports; usb_devices := devs;
              total_devices := length ports |}
         = (no_devices_report, Return tt)
         <-> ports = [])
  /\ (forall glob c out devs,
         get_usb_device_info c = (out, Return devs) ->
         get_serial_ports glob = [] ->
         main str_of_value glob c
         = ((["Arduino Device Enumerator for macOS";
              "Created for detecting Arduino Uno and compatible devices";
              "🔍 Scanning for Arduino devices..."]
             ++ out ++ no_devices_report ++ [(nl ++ rule)%string])%list,
            Return tt)).
Proof.
  split; [exact detect_returns|]. split.
  - intros ports devs. split.
    + intros H. destruct ports as [|p ports]; [reflexivity|]. exfalso.
      pose proof (print_device_info_nonzero
                    {| serial_ports := p :: ports; usb_devices := devs;
                       total_devices := length (p :: ports) |}) as Hline.
      rewrite H in Hline. specialize (Hline (Nat.neq_succ_0 _)).
      discriminate Hline.
    + intros ->. now apply print_device_info_zero.
  - intros glob c out devs Hc Hports. unfold main.
    rewrite (detect_returns glob c out devs Hc), Hports. reflexivity.
Qed.

End WithStr.

Lemma no_devices_branch_witness :
  print_device_info (fun _ => "")
    {| serial_ports := []; usb_devices := []; total_devices := 0 |}
  = (no_devices_report, Return tt).
Proof. apply (proj1 (no_devices_branch (fun _ => ""))). reflexivity. Defined.

Lemma zero_branch_ignores_usb_devices_witness :
  main (fun _ => "") (fun _ => [])
       (Parsed (usb_data_of
                  [device (Some "USB31Bus") None
                          (Some [device (Some "Arduino Uno") (Some "0x2341") None])]))
  = ((["Arduino Device Enumerator for macOS";
       "Created for detecting Arduino Uno and compatible devices";
       "🔍 Scanning for Arduino devices..."]
      ++ no_devices_report ++ [(nl ++ rule)%string])%list,
     Return tt).
Proof.
  apply (proj2 (proj2 (zero_branch_ignores_usb_devices (fun _ => "")))
           (fun _ => []) _ []
           [candidate (device (Some "Arduino Uno") (Some "0x2341") None)]);
    reflexivity.
Defined.

End Report.

(* ================================================================== *)
(** * The search on arbitrary parsed data *)
(* ================================================================== *)

Module Walk.
Import Py PyFacts ArduinoDetector Topology Notions.

(** ** Induction along the search *)

Lemma size_elem (x : json) (l : list json) :
  In x l -> json_size x < json_size (JArr l).
Proof.
  intros Hx. apply (Classifier.In_list_sum _ json_size) in Hx.
  change (json_size (JArr l)) with (S (list_sum (map json_size l))). lia.
Qed.

Lemma size_find (d : list (string * json)) (k : string) (v : json) :
  dict_find d k = Some v -> json_size v < json_size (JObj d).
Proof.
  change (json_size (JObj d))
    with (S (list_sum (map (fun kv => json_size (snd kv)) d))).
  induction d as [|[k' v'] d IH]; [discriminate|].
  cbn [dict_find]. destruct (String.eqb k' k); simpl.
  - intros H. injection H as ->. lia.
  - intros H. specialize (IH H). lia.
Qed.

(** To show [Q] of every [items], it is enough to show it of an [items]
    whose elements' [_items] values all have it. *)
Lemma search_induction (Q : json -> Prop) :
  (forall items,
      (forall elems d v,
          items = JArr elems -> In (JObj d) elems ->
          dict_find d "_items" = Some v -> Q v) ->
      Q items) ->
  forall items, Q items.
Proof.
  intros step items.
  assert (forall k j, json_size j < k -> Q j) as H;
    [|apply (H (S (json_size items))); lia].
  induction k as [|k IH]; intros j Hj; [lia|].
  apply step. intros elems d v -> Hd Hv.
  apply IH. apply size_elem in Hd. apply size_find in Hv. lia.
Qed.

(** ** Properties of steps that the search inherits *)

Section Closure.

Variable P : (list CandidateDevice -> result (list CandidateDevice)) -> Prop.

Hypothesis P_ext : forall f g, (forall acc, f acc = g acc) -> P f -> P g.
Hypothesis P_return : P Return.
Hypothesis P_attribute : P (fun _ => Raise AttributeError).
Hypothesis P_type : P (fun _ => Raise TypeError).
Hypothesis P_bind : forall f g, P f -> P g -> P (fun acc => a <- f acc ;; g a).
Hypothesis P_classify : forall d, P (classify d).

Lemma for_each_closed {A} (body : A -> list CandidateDevice -> result (list CandidateDevice))
      (l : list A) :
  (forall x, In x l -> P (body x)) -> P (for_each body l).
Proof.
  induction l as [|x l IH]; intros Hbody.
  - apply (P_ext Return); [reflexivity | exact P_return].
  - apply (P_ext (fun acc => a <- body x acc ;; for_each body l a)); [reflexivity|].
    apply P_bind; [apply Hbody; now left|].
    apply IH. intros y Hy. apply Hbody. now right.
Qed.

Lemma search_item_closed (item : json) :
  (forall d v, item = JObj d -> dict_find d "_items" = Some v ->
               P (search_usb_tree v)) ->
  P (search_item item).
Proof.
  intros Hsub.
  destruct item as [| b | n | s | l | d];
    try (apply (P_ext (fun _ => Raise AttributeError)); [reflexivity | exact P_attribute]).
  apply (P_ext (fun acc => a <- classify d acc ;; search_items d a)).
  - intros acc. symmetry. apply Classifier.search_item_obj.
  - apply P_bind; [apply P_classify|]. unfold search_items.
    destruct (dict_find d "_items") as [v|] eqn:E.
    + apply (P_ext (search_usb_tree v)); [reflexivity|]. now apply (Hsub d).
    + apply (P_ext Return); [reflexivity | exact P_return].
Qed.

Lemma search_closed (items : json) : P (search_usb_tree items).
Proof.
  induction items as [items IH] using search_induction.
  apply (P_ext (fun acc => elems <- py_iter items ;; for_each search_item elems acc)).
  { intros acc. symmetry. apply Classifier.search_usb_tree_unfold. }
  destruct items as [| b | n | s | elems | d]; cbn [py_iter bind];
    try exact P_type.
  - apply for_each_closed. intros x Hx. apply search_item_closed.
    intros d v -> _. apply in_map_iff in Hx as [c [Hc _]]. discriminate.
  - apply for_each_closed. intros x Hx. apply search_item_closed.
    intros d v -> Hv. now apply (IH elems d v).
  - apply for_each_closed. intros x Hx. apply search_item_closed.
    intros d' v -> _. apply in_map_iff in Hx as [kv [Hkv _]]. discriminate.
Qed.

(** The body of the loop over the buses. *)
Lemma bus_closed (bus : json) :
  P (fun arduino_devices =>
       has_items <- py_in "_items" bus ;;
       if has_items : bool
       then items <- py_index bus "_items" ;; search_usb_tree items arduino_devices
       else Return arduino_devices).
Proof.
  destruct bus as [| b | n | s | l | d]; cbn [py_in py_index bind]; try exact P_type.
  - destruct (contains "_items" s); [exact P_type | exact P_return].
  - destruct (existsb _ l); [exact P_type | exact P_return].
  - unfold dict_mem. destruct (dict_find d "_items") as [v|].
    + apply (P_ext (search_usb_tree v)); [reflexivity | apply search_closed].
    + exact P_return.
Qed.

End Closure.

(** ** Steps that only append *)

Lemma appends_ext f g : (forall acc, f acc = g acc) -> appends f -> appends g.
Proof. intros E Hf acc. now rewrite <- !E. Qed.

Lemma appends_return : appends Return.
Proof. intros acc. cbn. now rewrite app_nil_r. Qed.

Lemma appends_raise (e : exn) : appends (fun _ => Raise e).
Proof. intros acc. reflexivity. Qed.

Lemma appends_bind f g :
  appends f -> appends g -> appends (fun acc => a <- f acc ;; g a).
Proof.
  intros Hf Hg acc. rewrite (Hf acc).
  destruct (f []) as [r|e]; cbn [bind]; [|reflexivity].
  rewrite (Hg (acc ++ r)%list), (Hg r).
  destruct (g []) as [x|e]; cbn [bind]; [|reflexivity].
  now rewrite app_assoc.
Qed.

Lemma appends_classify (d : list (string * json)) : appends (classify d).
Proof.
  intros acc. unfold classify.
  destruct (str_lower (dict_get d "vendor_id" (JStr ""))) as [v|e]; [|reflexivity].
  destruct (str_lower (dict_get d "product_id" (JStr ""))) as [p|e]; [|reflexivity].
  destruct (str_lower (dict_get d "_name" (JStr ""))) as [n|e]; [|reflexivity].
  cbn [bind]. destruct (is_arduino v n); [reflexivity | now rewrite app_nil_r].
Qed.

Lemma appends_search (items : json) : appends (search_usb_tree items).
Proof.
  apply search_closed.
  - exact appends_ext.
  - exact appends_return.
  - exact (appends_raise _).
  - exact (appends_raise _).
  - exact appends_bind.
  - exact appends_classify.
Qed.

(** ** Steps that keep the records coherent *)

Lemma keeps_ext f g : (forall acc, f acc = g acc) -> keeps f -> keeps g.
Proof. intros E Hf acc Hacc. rewrite <- E. now apply Hf. Qed.

Lemma keeps_return : keeps Return.
Proof. intros acc Hacc. exact Hacc. Qed.

Lemma keeps_raise (e : exn) : dynamic_error e -> keeps (fun _ => Raise e).
Proof. intros He acc _. exact He. Qed.

Lemma keeps_bind f g : keeps f -> keeps g -> keeps (fun acc => a <- f acc ;; g a).
Proof.
  intros Hf Hg acc Hacc. specialize (Hf acc Hacc).
  destruct (f acc) as [devs|e]; cbn [bind]; [now apply Hg | exact Hf].
Qed.

(** A field that [.lower()] accepted is a string, or is absent and then
    reported as "Unknown". *)
Lemma lowered_field (d : list (string * json)) (key s : string) :
  str_lower (dict_get d key (JStr "")) = Return s ->
  exists t,
    dict_get d key (JStr "Unknown") = JStr t
    /\ (s = lower t \/ (s = "" /\ t = "Unknown")).
Proof.
  unfold dict_get. destruct (dict_find d key) as [x|].
  - destruct x as [| b | n | t | l | m]; try discriminate.
    cbn. intros H. injection H as <-. exists t. auto.
  - cbn. intros H. injection H as <-. exists "Unknown". auto.
Qed.

Lemma keeps_classify (d : list (string * json)) : keeps (classify d).
Proof.
  intros acc Hacc. unfold classify.
  destruct (str_lower (dict_get d "vendor_id" (JStr ""))) as [v|e] eqn:Ev;
    [|destruct (dict_get d "vendor_id" (JStr "")); try discriminate;
      injection Ev as <-; now left].
  destruct (str_lower (dict_get d "product_id" (JStr ""))) as [p|e] eqn:Ep;
    [|destruct (dict_get d "product_id" (JStr "")); try discriminate;
      injection Ep as <-; now left].
  destruct (str_lower (dict_get d "_name" (JStr ""))) as [n|e] eqn:En;
    [|destruct (dict_get d "_name" (JStr "")); try discriminate;
      injection En as <-; now left].
  cbn [bind]. destruct (is_arduino v n) eqn:Hmatch; [|exact Hacc].
  apply Forall_app. split; [exact Hacc|]. constructor; [|constructor].
  apply lowered_field in Ev as (tv & Hv & Cv).
  apply lowered_field in Ep as (tp & Hp & _).
  apply lowered_field in En as (tn & Hn & Cn).
  exists tn, tv, tp. unfold device_info.
  cbn [name vendor_id product_id manufacturer].
  repeat split; try assumption.
  - destruct Cv as [-> | [-> ->]]; reflexivity.
  - rewrite <- Hmatch.
    destruct Cv as [-> | [-> ->]]; destruct Cn as [-> | [-> ->]]; try reflexivity;
      unfold is_arduino; destruct (dict_mem ARDUINO_IDS _); reflexivity.
Qed.

Lemma keeps_search (items : json) : keeps (search_usb_tree items).
Proof.
  apply search_closed.
  - exact keeps_ext.
  - exact keeps_return.
  - apply keeps_raise. now left.
  - apply keeps_raise. now right.
  - exact keeps_bind.
  - exact keeps_classify.
Qed.

Lemma keeps_buses (buses : list json) :
  keeps (for_each (fun bus arduino_devices =>
                     has_items <- py_in "_items" bus ;;
                     if has_items : bool
                     then items <- py_index bus "_items" ;;
                          search_usb_tree items arduino_devices
                     else Return arduino_devices)
                  buses).
Proof.
  apply for_each_closed.
  - exact keeps_ext.
  - exact keeps_return.
  - exact keeps_bind.
  - intros bus _. apply bus_closed.
    + exact keeps_ext.
    + exact keeps_return.
    + apply keeps_raise. now left.
    + apply keeps_raise. now right.
    + exact keeps_bind.
    + exact keeps_classify.
Qed.

(** The [try] block on parsed data: coherent records, or one of the two
    dynamic errors. *)
Lemma try_parsed (usb_data : json) :
  match get_usb_device_info_try (Parsed usb_data) with
  | Return devs => Forall coherent devs
  | Raise e => dynamic_error e
  end.
Proof.
  unfold get_usb_device_info_try. cbn [run_and_load bind].
  destruct usb_data as [| b | n | s | l | d]; cbn [py_get bind]; try (now left).
  destruct (py_iter (dict_get d "SPUSBDataType" (JArr []))) as [buses|e] eqn:E.
  - cbn [bind]. now apply keeps_buses.
  - cbn [bind]. destruct (dict_get d "SPUSBDataType" (JArr [])); try discriminate;
      injection E as <-; now right.
Qed.

Lemma for_each_app {A S} (body : A -> S -> result S) (l1 l2 : list A) (s : S) :
  for_each body (l1 ++ l2) s = (s' <- for_each body l1 s ;; for_each body l2 s').
Proof.
  revert s; induction l1 as [|x l1 IH]; intros s; [reflexivity|].
  cbn [app for_each]. destruct (body x s) as [s'|e]; [apply IH | reflexivity].
Qed.

Lemma append_assoc (a b c : string) : (a ++ b) ++ c = a ++ b ++ c.
Proof. induction a as [|x a IH]; simpl; [reflexivity | now rewrite IH]. Qed.


(** ** Properties of the search *)

(** X1: [search_usb_tree] only ever appends to [arduino_devices]: from
    any list it returns that list followed by what it returns from the
    empty list, and it raises from any list exactly when it raises from
    the empty one.  Searching two sibling lists joined is searching the
    first and then the second. *)
Theorem search_only_appends :
  (forall items acc,
      search_usb_tree items acc
      = (r <- search_usb_tree items [] ;; Return (acc ++ r)%list))
  /\ (forall l1 l2 acc,
         search_usb_tree (JArr (l1 ++ l2)) acc
         = (a <- search_usb_tree (JArr l1) acc ;; search_usb_tree (JArr l2) a)).
Proof.
  split; [exact appends_search|].
  intros l1 l2 acc. rewrite !Classifier.search_usb_tree_unfold.
  cbn [py_iter bind]. rewrite for_each_app.
  destruct (for_each search_item l1 acc) as [a|e]; [|reflexivity].
  cbn [bind]. now rewrite Classifier.search_usb_tree_unfold.
Qed.

(** X2: whatever JSON the profiler printed, every record that
    [get_usb_device_info] returns is coherent: its name, vendor ID and
    product ID are strings, its manufacturer is the table's label for its
    own vendor ID lower-cased ("Unknown" without one), and its own name
    and vendor ID satisfy the predicate.  [search_usb_tree] extends a
    list of coherent records to a list of coherent records. *)
Theorem returned_records_coherent :
  (forall items acc devs,
      Forall coherent acc ->
      search_usb_tree items acc = Return devs ->
      Forall coherent devs)
  /\ (forall c out devs,
         get_usb_device_info c = (out, Return devs) ->
         Forall coherent devs).
Proof.
  split.
  - intros items acc devs Hacc H. pose proof (keeps_search items acc Hacc) as K.
    now rewrite H in K.
  - intros c out devs. unfold get_usb_device_info.
    destruct c as [msg | msg | msg | usb_data].
    + discriminate.
    + cbn. intros H. injection H as _ <-. constructor.
    + cbn. intros H. injection H as _ <-. constructor.
    + pose proof (try_parsed usb_data) as K.
      destruct (get_usb_device_info_try (Parsed usb_data)) as [a|e].
      * unfold ret. intros H. now injection H as _ <-.
      * destruct K as [-> | ->]; discriminate.
Qed.

Lemma returned_records_coherent_witness :
  coherent {| name := JStr "USB2.0-Serial";
              vendor_id := JStr "Unknown";
              product_id := JStr "Unknown";
              version := JNum 6;
              speed := JStr "Unknown";
              location_id := JStr "Unknown";
              manufacturer := "Unknown";
              serial_number := JStr "Unknown" |}.
Proof.
  refine (Forall_inv (l := []) _).
  apply (proj2 returned_records_coherent
           (Parsed
              (JObj [("SPUSBDataType",
                      JArr [JObj [("_items",
                                   JArr [JObj [("_name", JStr "USB2.0-Serial");
                                               ("bcd_device", JNum 6);
                                               ("Media", JArr [])]])]])])) []).
  reflexivity.
Defined.

(** X3: once the profiler's output has parsed, [get_usb_device_info]
    prints nothing: it returns, or it raises [AttributeError] or
    [TypeError], neither of which the [except] clause catches.  It never
    raises [KeyError], so the error line is printed only after a
    non-zero exit or unparsable output, and the result is then the empty
    list. *)
Theorem error_line_only_for_process_failures :
  (forall usb_data,
      exists r,
        get_usb_device_info (Parsed usb_data) = ([], r)
        /\ (forall e, r = Raise e -> e = AttributeError \/ e = TypeError))
  /\ (forall c out r,
         get_usb_device_info c = (out, r) ->
         out <> [] ->
         exists msg,
           (c = NonZeroExit msg \/ c = InvalidJSON msg)
           /\ out = ["Error getting USB device info: " ++ msg]
           /\ r = Return []).
Proof.
  assert (forall usb_data,
             exists r,
               get_usb_device_info (Parsed usb_data) = ([], r)
               /\ (forall e, r = Raise e -> e = AttributeError \/ e = TypeError)) as Hparsed.
  { intros usb_data. pose proof (try_parsed usb_data) as K.
    unfold get_usb_device_info.
    destruct (get_usb_device_info_try (Parsed usb_data)) as [a|e].
    - eexists. split; [reflexivity | discriminate].
    - exists (Raise e). split.
      + destruct K as [-> | ->]; reflexivity.
      + intros e' H. injection H as <-. exact K. }
  split; [exact Hparsed|].
  intros c out r H Hout. destruct c as [msg | msg | msg | usb_data].
  - cbn in H. injection H as <- _. contradiction.
  - exists msg. cbn in H. injection H as <- <-. auto.
  - exists msg. cbn in H. injection H as <- <-. auto.
  - destruct (Hparsed usb_data) as (r' & E & _). rewrite E in H.
    injection H as <- _. contradiction.
Qed.

Lemma error_line_only_for_process_failures_witness :
  exists msg,
    (NonZeroExit "exit status 1" = NonZeroExit msg
     \/ NonZeroExit "exit status 1" = InvalidJSON msg)
    /\ ["Error getting USB device info: exit status 1"]
       = ["Error getting USB device info: " ++ msg]
    /\ Return (@nil CandidateDevice) = Return [].
Proof.
  apply (proj2 error_line_only_for_process_failures (NonZeroExit "exit status 1")
           ["Error getting USB device info: exit status 1"] (Return []));
    [reflexivity | discriminate].
Defined.

(** X4: parsed data without an [SPUSBDataType] entry, and buses that
    are dicts without [_items], give the empty list, silently; nothing
    is read from a bus but its [_items]. *)
Theorem missing_entries_give_nothing :
  (forall d,
      dict_find d "SPUSBDataType" = None ->
      get_usb_device_info (Parsed (JObj d)) = ([], Return []))
  /\ (forall d buses,
         dict_find d "SPUSBDataType" = Some (JArr buses) ->
         Forall (fun bus => exists b, bus = JObj b /\ dict_find b "_items" = None) buses ->
         get_usb_device_info (Parsed (JObj d)) = ([], Return [])).
Proof.
  split.
  - intros d Hd. unfold get_usb_device_info, get_usb_device_info_try.
    cbn [run_and_load bind py_get]. unfold dict_get. now rewrite Hd.
  - intros d buses Hd Hbuses. unfold get_usb_device_info, get_usb_device_info_try.
    cbn [run_and_load bind py_get]. unfold dict_get. rewrite Hd.
    cbn [py_iter bind].
    replace (for_each _ buses []) with (Return (@nil CandidateDevice)); [reflexivity|].
    symmetry. clear Hd. induction Hbuses as [|bus buses (b & -> & Hb) _ IH]; [reflexivity|].
    cbn [for_each py_in]. unfold dict_mem. rewrite Hb. cbn [bind]. exact IH.
Qed.

Lemma missing_entries_give_nothing_witness :
  get_usb_device_info (Parsed (JObj [("SPAudioDataType", JArr [])])) = ([], Return [])
  /\ get_usb_device_info
       (Parsed (JObj [("SPUSBDataType",
                       JArr [JObj [("_name", JStr "USB31Bus");
                                   ("host_controller", JStr "AppleT8103USBXHCI")]])]))
     = ([], Return []).
Proof.
  split.
  - apply (proj1 missing_entries_give_nothing). reflexivity.
  - apply (proj2 missing_entries_give_nothing _
             [JObj [("_name", JStr "USB31Bus");
                    ("host_controller", JStr "AppleT8103USBXHCI")]]);
      [reflexivity|].
    constructor; [|constructor]. eexists. split; reflexivity.
Defined.


(** X6: the test for "usb2.0-serial" never decides a classification: a
    name that contains it contains "serial", so the predicate is the
    table lookup or one of the four other substrings. *)
Theorem usb2_serial_test_redundant (vendor_id product_name : string) :
  is_arduino vendor_id product_name
  = (dict_mem ARDUINO_IDS vendor_id
     || contains "arduino" product_name
     || contains "serial" product_name
     || contains "ch340" product_name
     || contains "ftdi" product_name).
Proof.
  unfold is_arduino.
  destruct (contains "usb2.0-serial" product_name) eqn:E;
    [|now rewrite orb_false_r].
  apply contains_iff in E as (a & b & ->).
  assert (contains "serial" (a ++ "usb2.0-serial" ++ b) = true) as ->.
  { apply contains_iff. exists (a ++ "usb2.0-"), b. now rewrite append_assoc. }
  now rewrite !orb_true_r.
Qed.

(** ** Which data the search walks to the end *)

Lemma searchable_cons (d : list (string * json)) (rest : list json) :
  searchable (JArr (JObj d :: rest))
  = (text_or_absent d "vendor_id"
     && text_or_absent d "product_id"
     && text_or_absent d "_name"
     && match dict_find d "_items" with
        | Some v => searchable v
        | None => true
        end
     && searchable (JArr rest)).
Proof.
  cbn [searchable forallb]. f_equal. f_equal.
  induction d as [|[k v] d IH]; [reflexivity|].
  cbn [dict_find]. destruct (String.eqb k "_items"); [reflexivity | exact IH].
Qed.

Lemma lower_returns (d : list (string * json)) (key : string) :
  (exists s, str_lower (dict_get d key (JStr "")) = Return s)
  <-> text_or_absent d key = true.
Proof.
  unfold text_or_absent, dict_get.
  destruct (dict_find d key) as [[| b | n | s | l | m]|]; cbn;
    split; try discriminate; try (intros [s' H]; discriminate); eauto.
Qed.

Lemma classify_returns (d : list (string * json)) (acc : list CandidateDevice) :
  (exists acc', classify d acc = Return acc')
  <-> text_or_absent d "vendor_id" && text_or_absent d "product_id"
      && text_or_absent d "_name" = true.
Proof.
  rewrite !andb_true_iff, <- !lower_returns. unfold classify. split.
  - intros [acc' H].
    destruct (str_lower (dict_get d "vendor_id" (JStr ""))) as [v|e]; [|discriminate].
    destruct (str_lower (dict_get d "product_id" (JStr ""))) as [p|e]; [|discriminate].
    destruct (str_lower (dict_get d "_name" (JStr ""))) as [n|e]; [|discriminate].
    repeat split; eexists; reflexivity.
  - intros [[[v ->] [p ->]] [n ->]]. cbn [bind]. eexists. reflexivity.
Qed.

(** X11: [search_usb_tree] returns, from whatever list of records,
    exactly on the data that is [searchable]: neither the other keys of
    a dict, nor the types of its version, speed, location and serial
    number, nor what the predicate decides can make it raise; a name, a
    vendor ID or a product ID that is not a string, an element that is
    not a dict, and an [_items] entry that cannot be iterated do. *)
Theorem search_returns_iff_searchable (items : json) (acc : list CandidateDevice) :
  (exists devs, search_usb_tree items acc = Return devs)
  <-> searchable items = true.
Proof.
  revert acc. induction items as [items IH] using search_induction.
  destruct items as [| b | n | s | elems | d];
    try (intros acc; split; [intros [devs H]; discriminate | discriminate]).
  - intros acc. destruct s; cbn; split; eauto; try discriminate.
    intros [devs H]. discriminate.
  - assert (forall d v, In (JObj d) elems -> dict_find d "_items" = Some v ->
                        forall acc, (exists devs, search_usb_tree v acc = Return devs)
                                    <-> searchable v = true) as IH'
        by (intros d v Hd Hv; now apply (IH elems d v)).
    clear IH. induction elems as [|item rest IHrest]; intros acc.
    + cbn. split; eauto.
    + destruct item as [| b | n | s | l | d];
        try (cbn; split; [intros [devs H]; discriminate | discriminate]).
      rewrite Classifier.search_usb_tree_cons, searchable_cons, !andb_true_iff.
      rewrite <- andb_true_iff, <- andb_true_iff, <- (classify_returns d acc).
      assert (forall acc1,
                 (exists acc2, search_items d acc1 = Return acc2)
                 <-> match dict_find d "_items" with
                     | Some v => searchable v
                     | None => true
                     end = true) as Hitems.
      { intros acc1. unfold search_items.
        destruct (dict_find d "_items") as [v|] eqn:E.
        - apply (IH' d v); [now left | exact E].
        - split; eauto. }
      assert (forall acc2,
                 (exists devs, search_usb_tree (JArr rest) acc2 = Return devs)
                 <-> searchable (JArr rest) = true) as Hrest.
      { apply IHrest. intros d' v Hd'. apply IH'. now right. }
      split.
      * intros [devs H].
        destruct (classify d acc) as [acc1|e]; [|discriminate]. cbn [bind] in H.
        destruct (search_items d acc1) as [acc2|e] eqn:E2; [|discriminate].
        cbn [bind] in H. repeat split; eauto.
        -- apply (Hitems acc1). eauto.
        -- apply (Hrest acc2). eauto.
      * intros [[[acc1 ->] Hi] Hr]. cbn [bind].
        apply (Hitems acc1) in Hi as [acc2 ->]. cbn [bind].
        now apply Hrest.
  - intros acc. destruct d; cbn; split; eauto; try discriminate.
    intros [devs H]. discriminate.
Qed.

End Walk.

(* ================================================================== *)
(** * The path scanner, further *)
(* ================================================================== *)

Module Paths.
Import Py PyFacts ArduinoDetector Notions.

Lemma nodup_length_le (l : list string) : length (nodup string_dec l) <= length l.
Proof.
  induction l as [|x l IH]; [reflexivity|].
  cbn [nodup]. destruct (in_dec string_dec x l); simpl; lia.
Qed.

Lemma sorted_length (l : list string) : length (sorted l) = length l.
Proof. symmetry. apply Permutation_length, Scanner.sorted_Permutation. Qed.

Lemma matched_iff (glob : string -> list string) (p : string) :
  In p (flat_map glob patterns)
  <-> exists pattern, In pattern patterns /\ In p (glob pattern).
Proof. apply in_flat_map. Qed.

(** X7: the result of [get_serial_ports] depends only on the set of
    paths the patterns match: the order in which [glob] lists them, a
    path listed twice and a path matched by two patterns make no
    difference. *)
Theorem get_serial_ports_set_only (glob glob' : string -> list string) :
  (forall p,
      (exists pattern, In pattern patterns /\ In p (glob pattern))
      <-> (exists pattern, In pattern patterns /\ In p (glob' pattern))) ->
  get_serial_ports glob = get_serial_ports glob'.
Proof.
  intros Hsame. rewrite !Scanner.get_serial_ports_eq.
  apply Scanner.ascending_unique.
  - apply Scanner.sorted_ascending, NoDup_nodup.
  - apply Scanner.sorted_ascending, NoDup_nodup.
  - intros p. unfold list_set.
    now rewrite !Scanner.sorted_In, !nodup_In, !matched_iff.
Qed.

Lemma get_serial_ports_set_only_witness :
  get_serial_ports
    (fun pattern =>
       if String.eqb pattern "/dev/cu.usbmodem*"
       then ["/dev/cu.usbmodem21"; "/dev/cu.usbmodem11"; "/dev/cu.usbmodem21"]
       else [])
  = get_serial_ports
      (fun pattern =>
         if String.eqb pattern "/dev/cu.usbmodem*"
         then ["/dev/cu.usbmodem11"; "/dev/cu.usbmodem21"]
         else []).
Proof.
  apply get_serial_ports_set_only.
  intros p; split; intros (pattern & Hin & Hp); exists pattern; (split; [exact Hin|]);
    destruct (String.eqb pattern "/dev/cu.usbmodem*"); simpl in *; tauto.
Defined.

(** X8: the list [get_serial_ports] returns is already in normal form,
    removing duplicates from it and sorting it again changes nothing,
    and it is never longer than the list of raw matches. *)
Theorem get_serial_ports_normal_form (glob : string -> list string) :
  sorted (list_set (get_serial_ports glob)) = get_serial_ports glob
  /\ length (get_serial_ports glob) <= length (flat_map glob patterns).
Proof.
  rewrite Scanner.get_serial_ports_eq. split.
  - apply Scanner.ascending_unique.
    + apply Scanner.sorted_ascending, NoDup_nodup.
    + apply Scanner.sorted_ascending, NoDup_nodup.
    + intros p. unfold list_set.
      rewrite Scanner.sorted_In, nodup_In. reflexivity.
  - rewrite sorted_length. apply nodup_length_le.
Qed.

End Paths.

(* ================================================================== *)
(** * The report and the run, further *)
(* ================================================================== *)

Module Output.
Import Py PyFacts ArduinoDetector Topology Notions.

Lemma enumerate_combine {A} (l : list A) (start : nat) :
  enumerate l start = combine (seq start (length l)) l.
Proof.
  revert start; induction l as [|x l IH]; intros start; [reflexivity|].
  cbn [enumerate length seq combine]. now rewrite IH.
Qed.

Lemma for_print_lines {A} (body : A -> M unit) (lines : A -> list string)
      (l : list A) :
  (forall x, body x = (lines x, Return tt)) ->
  for_print body l = (flat_map lines l, Return tt).
Proof.
  intros Hbody. unfold for_print.
  induction l as [|x l IH]; [reflexivity|].
  cbn [fold_right flat_map]. rewrite IH, Hbody. reflexivity.
Qed.

Lemma flat_map_single {A B} (f : A -> B) (l : list A) :
  flat_map (fun x => [f x]) l = map f l.
Proof. induction l as [|x l IH]; [reflexivity|]. cbn. now rewrite IH. Qed.

Lemma flat_map_select {A B} (keep : A -> bool) (f : A -> B) (l : list A) :
  flat_map (fun x => if keep x then [f x] else []) l = map f (filter keep l).
Proof.
  induction l as [|x l IH]; [reflexivity|].
  cbn [flat_map filter]. rewrite IH. now destruct (keep x).
Qed.

Section WithStr.

Variable str_of_value : json -> string.

Lemma print_usb_device_lines (entry : nat * CandidateDevice) :
  print_usb_device str_of_value entry = (device_lines str_of_value entry, Return tt).
Proof.
  destruct entry as [i device]. unfold print_usb_device, device_lines.
  cbn [fst snd]. now destruct (eq_str (serial_number device) "Unknown").
Qed.

Lemma print_device_info_found (devices : ScanResult) :
  total_devices devices <> 0 ->
  print_device_info str_of_value devices
  = (devices_report str_of_value devices, Return tt).
Proof.
  intros H. unfold print_device_info, devices_report.
  destruct (Nat.eqb_spec (total_devices devices) 0) as [E|_]; [contradiction|].
  rewrite (for_print_lines _ (fun entry => [port_line entry]));
    [|now intros [i port]].
  rewrite (for_print_lines _ (fun port =>
                                if contains "cu." port then ["   • " ++ port] else []));
    [|intros port; now destruct (contains "cu." port)].
  rewrite flat_map_single, flat_map_select, enumerate_combine.
  destruct (usb_devices devices) as [|d ds] eqn:Eusb; [reflexivity|].
  rewrite (for_print_lines _ (device_lines str_of_value) _ print_usb_device_lines).
  rewrite enumerate_combine. reflexivity.
Qed.

(** X9: the report of a non-zero count, and it is printed without
    raising: the banner, the count, one numbered line per port in order,
    the USB section when there is a record (eight lines per record, and
    a ninth for its serial number unless that is "Unknown"), the usage
    header, and one bullet for each port that contains "cu.", in order. *)
Theorem report_with_devices (devices : ScanResult) :
  total_devices devices <> 0 ->
  print_device_info str_of_value devices
  = (devices_report str_of_value devices, Return tt).
Proof. exact (print_device_info_found devices). Qed.

(** X10: how a run ends.  When [get_usb_device_info] raises, [main]
    raises the same exception after the two title lines and the scanning
    line, and prints no report.  When it returns, [main] returns after
    printing those lines, what [get_usb_device_info] printed, the report
    (the no-devices report exactly when no port was found) and a closing
    rule. *)
Theorem main_outcome (glob : string -> list string) (c : usb_info) :
  (forall out e,
      get_usb_device_info c = (out, Raise e) ->
      main str_of_value glob c
      = ((["Arduino Device Enumerator for macOS";
           "Created for detecting Arduino Uno and compatible devices";
           "🔍 Scanning for Arduino devices..."] ++ out)%list,
         Raise e))
  /\ (forall out devs,
         get_usb_device_info c = (out, Return devs) ->
         main str_of_value glob c
         = ((["Arduino Device Enumerator for macOS";
              "Created for detecting Arduino Uno and compatible devices";
              "🔍 Scanning for Arduino devices..."]
             ++ out
             ++ (match get_serial_ports glob with
                 | [] => no_devices_report
                 | _ :: _ =>
                     devices_report str_of_value
                       {| serial_ports := get_serial_ports glob;
                          usb_devices := devs;
                          total_devices := length (get_serial_ports glob) |}
                 end)
             ++ [(nl ++ rule)%string])%list,
            Return tt)).
Proof.
  split.
  - intros out e H. unfold main, detect_arduino_devices. rewrite H. reflexivity.
  - intros out devs H. unfold main.
    rewrite (Report.detect_returns glob c out devs H).
    cbn [bindM print app].
    destruct (get_serial_ports glob) as [|p ports] eqn:E.
    + reflexivity.
    + rewrite print_device_info_found by discriminate. reflexivity.
Qed.

End WithStr.

Lemma report_with_devices_witness :
  print_device_info (fun _ => "?")
    {| serial_ports := ["/dev/cu.usbserial-1410"; "/dev/tty.usbserial-1410"];
       usb_devices := [];
       total_devices := 2 |}
  = ([ nl ++ rule;
       "🔌 ARDUINO DEVICE DETECTION RESULTS";
       rule;
       "✅ Found 2 potential Arduino device(s)";
       nl ++ "📡 Serial Ports (2):";
       "   1. /dev/cu.usbserial-1410";
       "   2. /dev/tty.usbserial-1410";
       nl ++ "💻 Usage in Arduino IDE:";
       "   Use these ports in Arduino IDE > Tools > Port:";
       "   • /dev/cu.usbserial-1410" ],
     Return tt).
Proof.
  apply (report_with_devices (fun _ => "?")
           {| serial_ports := ["/dev/cu.usbserial-1410"; "/dev/tty.usbserial-1410"];
              usb_devices := [];
              total_devices := 2 |}).
  discriminate.
Defined.

Lemma main_outcome_witness :
  main (fun _ => "?") (fun _ => []) (Parsed (JArr []))
  = (["Arduino Device Enumerator for macOS";
      "Created for detecting Arduino Uno and compatible devices";
      "🔍 Scanning for Arduino devices..."],
     Raise AttributeError).
Proof.
  apply (proj1 (main_outcome (fun _ => "?") (fun _ => []) (Parsed (JArr [])))
           [] AttributeError).
  reflexivity.
Defined.

End Output.
